(** * The control panel's communication actions

    A shallow embedding of
    [frontend/controlpanel/src/store/actions/communicationActions.ts] and of
    the helpers it takes from [frontend/controlpanel/src/utils/index.ts],
    with the properties of the message router, the connection status, the
    persistence key, the heartbeat and the wire configuration.

    Strings are JavaScript strings (sequences of UTF-16 code units), values
    that come off the wire are untyped JavaScript values, and the effects of
    the module (Redux dispatches, [localStorage], the socket, timers, REST
    calls) are threaded through an explicit world. *)

From Stdlib Require Import String Ascii ZArith NArith List Lia.
From stdpp Require Import base decidable option list gmap.

Import ListNotations.
Local Open Scope N_scope.
Set Warnings "-register-all".

(* ===================================================================== *)
(** ** JavaScript strings and values *)
(* ===================================================================== *)

(** A JavaScript string: its UTF-16 code units. *)
Abbreviation jsstring := (list N).

(** An ASCII literal of the source as a JavaScript string. *)
Definition js (s : string) : jsstring :=
  map N_of_ascii (list_ascii_of_string s).

Arguments js : simpl never.

(** The same, with the apostrophe standing for the double quote, to write
    JSON texts. *)
Definition jq (s : string) : jsstring :=
  map (fun c => if (c =? 39) then 34 else c) (js s).

(** A number that came out of a JSON text: the double nearest to
    [(-1)^neg * mant * 10^exp]. *)
Record number := Number { num_neg : bool; num_mant : N; num_exp : Z }.

(** [n] denotes [+0] or [-0]: the mantissa is zero, or the decimal is at
    most [2^-1075] and rounds (ties to even) to zero. *)
Definition number_is_zero (n : number) : bool :=
  (num_mant n =? 0)
  || (if (0 <=? num_exp n)%Z then false
      else (num_mant n * 2 ^ 1075 <=? 10 ^ Z.to_N (- num_exp n))).

Inductive value :=
| VUndefined
| VNull
| VBool (b : bool)
| VNumber (n : number)
| VString (s : jsstring)
| VArray (items : list value)
| VObject (props : list (jsstring * value)).

(** Uncaught exceptions of the module: property access on [null] or
    [undefined], and ToString of a value that has no string. *)
Inductive exn := TypeError.

Inductive completion (A : Type) :=
| Normal (a : A)
| Abrupt (e : exn).
Arguments Normal {A} a.
Arguments Abrupt {A} e.

(** ToBoolean. *)
Definition truthy (v : value) : bool :=
  match v with
  | VUndefined | VNull => false
  | VBool b => b
  | VNumber n => negb (number_is_zero n)
  | VString s => match s with [] => false | _ => true end
  | VArray _ | VObject _ => true
  end.

Definition nullish (v : value) : bool :=
  match v with
  | VUndefined | VNull => true
  | _ => false
  end.

(** Own property of an object given by its members in source order; a
    later member with the same key wins. *)
Fixpoint own_prop (props : list (jsstring * value)) (k : jsstring) : option value :=
  match props with
  | [] => None
  | (k', v) :: rest =>
      match own_prop rest k with
      | Some v' => Some v'
      | None => if decide (k' = k) then Some v else None
      end
  end.

(** [v[k]] for a value that is not [null] or [undefined], for the keys
    this module reads ([module_keys] below: [type], [data], [message],
    [config], ...). They are no properties of the built-in prototypes, so
    only objects have them, as members of their own. A key that a
    prototype provides ([constructor], [toString], [length]) is not read
    this way. *)
Definition read_prop (v : value) (k : jsstring) : value :=
  match v with
  | VObject props => default VUndefined (own_prop props k)
  | _ => VUndefined
  end.

(** [v.k] and [v[k]]: a TypeError on [null] and [undefined]. *)
Definition member (v : value) (k : jsstring) : completion value :=
  if nullish v then Abrupt TypeError else Normal (read_prop v k).

(** [v?.k]. *)
Definition opt_member (v : value) (k : jsstring) : value :=
  if nullish v then VUndefined else read_prop v k.

(** [a ?? b]. *)
Definition coalesce (a b : value) : value :=
  if nullish a then b else a.

(** [v === s] for a string constant [s]. *)
Definition strict_eq_string (v : value) (s : jsstring) : bool :=
  match v with
  | VString s' => bool_decide (s' = s)
  | _ => false
  end.

(** [!==  undefined]. *)
Definition is_undefined (v : value) : bool :=
  match v with
  | VUndefined => true
  | _ => false
  end.

(** ToString of a value that [JSON.parse] made throws a TypeError in two
    cases. An object with an own member [toString]: the member is no
    function, and [valueOf], own or of [Object.prototype], gives no
    primitive either. An array with an element, other than [null], whose
    ToString throws: [Array.prototype.join] converts each element. The
    primitives, and the objects that inherit [Object.prototype.toString],
    convert. *)
Fixpoint toString_throws (v : value) : bool :=
  match v with
  | VObject props =>
      match own_prop props (js "toString") with
      | Some _ => true
      | None => false
      end
  | VArray items => existsb toString_throws items
  | _ => false
  end.

(* ===================================================================== *)
(** ** [JSON.parse] *)
(* ===================================================================== *)

(** The host's [JSON.parse] (without reviver), as the grammar of ECMA-404:
    a lexer over the code units and a stack machine over the tokens, both
    by structural recursion on their input. [None] is the SyntaxError. *)
Module JSON.

Inductive token :=
| TLBrace | TRBrace | TLBracket | TRBracket | TColon | TComma
| TString (s : jsstring)
| TWord (w : jsstring).

Inductive lexmode :=
| LIdle
| LWord (acc : jsstring)
| LStr (acc : jsstring)
| LEsc (acc : jsstring)
| LHex (acc : jsstring) (code : N) (todo : nat).

Definition is_ws (c : N) : bool :=
  (c =? 32) || (c =? 9) || (c =? 10) || (c =? 13).

Definition punct (c : N) : option token :=
  if c =? 123 then Some TLBrace
  else if c =? 125 then Some TRBrace
  else if c =? 91 then Some TLBracket
  else if c =? 93 then Some TRBracket
  else if c =? 58 then Some TColon
  else if c =? 44 then Some TComma
  else None.

Definition hex_digit (c : N) : option N :=
  if (48 <=? c) && (c <=? 57) then Some (c - 48)
  else if (65 <=? c) && (c <=? 70) then Some (c - 55)
  else if (97 <=? c) && (c <=? 102) then Some (c - 87)
  else None.

Definition escape (c : N) : option N :=
  if c =? 34 then Some 34
  else if c =? 92 then Some 92
  else if c =? 47 then Some 47
  else if c =? 98 then Some 8
  else if c =? 102 then Some 12
  else if c =? 110 then Some 10
  else if c =? 114 then Some 13
  else if c =? 116 then Some 9
  else None.

(** Accumulators hold their code units and tokens in reverse. *)
Definition lex_idle (toks : list token) (c : N) : lexmode * list token :=
  if is_ws c then (LIdle, toks)
  else if c =? 34 then (LStr [], toks)
  else match punct c with
       | Some t => (LIdle, t :: toks)
       | None => (LWord [c], toks)
       end.

Definition lex_step (m : lexmode) (toks : list token) (c : N)
  : option (lexmode * list token) :=
  match m with
  | LIdle => Some (lex_idle toks c)
  | LWord acc =>
      if is_ws c || (c =? 34) || bool_decide (is_Some (punct c))
      then Some (lex_idle (TWord (rev acc) :: toks) c)
      else Some (LWord (c :: acc), toks)
  | LStr acc =>
      if c =? 34 then Some (LIdle, TString (rev acc) :: toks)
      else if c =? 92 then Some (LEsc acc, toks)
      else if c <? 32 then None
      else Some (LStr (c :: acc), toks)
  | LEsc acc =>
      if c =? 117 then Some (LHex acc 0 4, toks)
      else match escape c with
           | Some e => Some (LStr (e :: acc), toks)
           | None => None
           end
  | LHex acc code todo =>
      match hex_digit c with
      | Some d =>
          match todo with
          | 1%nat => Some (LStr ((code * 16 + d) :: acc), toks)
          | _ => Some (LHex acc (code * 16 + d) (pred todo), toks)
          end
      | None => None
      end
  end.

Fixpoint lex (m : lexmode) (toks : list token) (s : jsstring) : option (list token) :=
  match s with
  | [] =>
      match m with
      | LIdle => Some (rev toks)
      | LWord acc => Some (rev (TWord (rev acc) :: toks))
      | _ => None
      end
  | c :: s' =>
      match lex_step m toks c with
      | Some (m', toks') => lex m' toks' s'
      | None => None
      end
  end.

(** Numbers: an optional minus, an integer part without leading zero, an
    optional fraction, an optional exponent. *)
Definition digit (c : N) : option N :=
  if (48 <=? c) && (c <=? 57) then Some (c - 48) else None.

Fixpoint take_digits (s : jsstring) : list N * jsstring :=
  match s with
  | [] => ([], [])
  | c :: s' =>
      match digit c with
      | Some d => let '(ds, r) := take_digits s' in (d :: ds, r)
      | None => ([], s)
      end
  end.

Definition digits_value (ds : list N) : N :=
  fold_left (fun a d => 10 * a + d) ds 0.

Definition parse_exponent (s : jsstring) : option Z :=
  match s with
  | [] => Some 0%Z
  | e :: r =>
      if (e =? 101) || (e =? 69) then
        let '(minus, r') :=
          match r with
          | sg :: r1 =>
              if sg =? 45 then (true, r1)
              else if sg =? 43 then (false, r1)
              else (false, r)
          | [] => (false, r)
          end in
        match take_digits r' with
        | ((_ :: _) as ds, []) =>
            let x := Z.of_N (digits_value ds) in
            Some (if minus then (- x)%Z else x)
        | _ => None
        end
      else None
  end.

Definition parse_number (w : jsstring) : option number :=
  let '(neg, s1) :=
    match w with
    | c :: r => if c =? 45 then (true, r) else (false, w)
    | [] => (false, w)
    end in
  let '(ip, s2) := take_digits s1 in
  match ip with
  | [] => None
  | 0 :: _ :: _ => None
  | _ =>
      let frac :=
        match s2 with
        | c :: r =>
            if c =? 46 then
              match take_digits r with
              | ((_ :: _) as fp, s3) => Some (fp, s3)
              | _ => None
              end
            else Some ([], s2)
        | [] => Some ([], s2)
        end in
      match frac with
      | None => None
      | Some (fp, s3) =>
          match parse_exponent s3 with
          | Some e =>
              Some (Number neg (digits_value (ip ++ fp))
                      (e - Z.of_nat (length fp))%Z)
          | None => None
          end
      end
  end.

Definition word_value (w : jsstring) : option value :=
  if bool_decide (w = js "null") then Some VNull
  else if bool_decide (w = js "true") then Some (VBool true)
  else if bool_decide (w = js "false") then Some (VBool false)
  else VNumber <$> parse_number w.

(** The containers under construction, innermost first. *)
Inductive frame :=
| FArr (acc : list value)
| FObj (acc : list (jsstring * value))
| FObjKey (acc : list (jsstring * value)) (key : jsstring).

Inductive pstate :=
| PValue (stack : list frame) (may_close : bool)
| PKey (stack : list frame) (may_close : bool)
| PColon (stack : list frame) (key : jsstring)
| PAfter (stack : list frame)
| PDone (v : value).

Definition complete (v : value) (stack : list frame) : option pstate :=
  match stack with
  | [] => Some (PDone v)
  | FArr acc :: st => Some (PAfter (FArr (acc ++ [v]) :: st))
  | FObjKey acc k :: st => Some (PAfter (FObj (acc ++ [(k, v)]) :: st))
  | FObj _ :: _ => None
  end.

Definition parse_step (p : pstate) (t : token) : option pstate :=
  match p, t with
  | PValue st _, TString s => complete (VString s) st
  | PValue st _, TWord w => v ← word_value w; complete v st
  | PValue st _, TLBracket => Some (PValue (FArr [] :: st) true)
  | PValue st _, TLBrace => Some (PKey (FObj [] :: st) true)
  | PValue (FArr acc :: st) true, TRBracket => complete (VArray acc) st
  | PKey (FObj acc :: st) _, TString k => Some (PColon (FObj acc :: st) k)
  | PKey (FObj acc :: st) true, TRBrace => complete (VObject acc) st
  | PColon (FObj acc :: st) k, TColon => Some (PValue (FObjKey acc k :: st) false)
  | PAfter (FArr acc :: st), TComma => Some (PValue (FArr acc :: st) false)
  | PAfter (FArr acc :: st), TRBracket => complete (VArray acc) st
  | PAfter (FObj acc :: st), TComma => Some (PKey (FObj acc :: st) false)
  | PAfter (FObj acc :: st), TRBrace => complete (VObject acc) st
  | _, _ => None
  end.

Fixpoint parse_tokens (p : pstate) (ts : list token) : option value :=
  match ts with
  | [] => match p with PDone v => Some v | _ => None end
  | t :: ts' =>
      match parse_step p t with
      | Some p' => parse_tokens p' ts'
      | None => None
      end
  end.

Definition parse (text : jsstring) : option value :=
  ts ← lex LIdle [] text; parse_tokens (PValue [] false) ts.

End JSON.

(* ===================================================================== *)
(** ** Constants of [utils/index.ts] *)
(* ===================================================================== *)

Definition LS_COMMUNICATION_ID_KEY : jsstring := js "communicationId".
Arguments LS_COMMUNICATION_ID_KEY : simpl never.

Module socketReceiveMsgTypes.
Definition UI_ERROR : jsstring := js "UI_ERROR".
Definition CLOSE_CONNECTION : jsstring := js "CLOSE_CONNECTION".
Definition INVALID_COMMUNICATION_ID : jsstring := js "INVALID_COMMUNICATION_ID".
Definition ERROR : jsstring := js "ERROR".
Definition IS_BOT_CONNECTED : jsstring := js "IS_BOT_CONNECTED".
Definition NEW_CONTROL_PANEL_DETECTED : jsstring := js "NEW_CONTROL_PANEL_DETECTED".
Definition SYSTEM_CONFIG : jsstring := js "SYSTEM_CONFIG".
Definition PING_STATE : jsstring := js "PING_STATE".
Definition USER_INPUT : jsstring := js "USER_INPUT".

(** The values of the object, in its order. *)
Definition all : list jsstring :=
  [UI_ERROR; CLOSE_CONNECTION; INVALID_COMMUNICATION_ID; ERROR;
   IS_BOT_CONNECTED; NEW_CONTROL_PANEL_DETECTED; SYSTEM_CONFIG; PING_STATE;
   USER_INPUT].
End socketReceiveMsgTypes.

Module socketSendMsgTypes.
Definition UPDATE_CONFIG : jsstring := js "UPDATE_CONFIG".
Definition PING : jsstring := js "PING".
Definition SEND_TEXT : jsstring := js "SEND_TEXT".
Definition SEND_AUDIO : jsstring := js "SEND_AUDIO".
End socketSendMsgTypes.

(** [messageToJson]: [JSON.parse], and on any exception the error
    envelope. *)
Definition messageToJson (data : jsstring) : value :=
  match JSON.parse data with
  | Some v => v
  | None =>
      VObject
        [(js "data", VObject [(js "message", VString (js "Error parsing json!"))]);
         (js "type", VString socketReceiveMsgTypes.UI_ERROR)]
  end.

(* ===================================================================== *)
(** ** The store's vocabulary *)
(* ===================================================================== *)

(** Modelled from the spec: the enum [ConnectionStatus] of
    [store/slices/communicationSlice], which is not under src/; the spec
    names the states connected, connecting and not-connected. *)
Module ConnectionStatus.
Inductive t := CONNECTED | CONNECTING | NOT_CONNECTED.
End ConnectionStatus.

(** Modelled from the spec: the enum [SnackbarType] of
    [store/slices/globalSlice], which is not under src/; the two members
    this module uses. *)
Module SnackbarType.
Inductive t := ERROR | INFO.
End SnackbarType.

(** Modelled from the spec: the interface [SystemConfig] of
    [store/slices/communicationSlice], which is not under src/; the eight
    fields that [parseSocketConfig] fills and [makeSocketConfig] reads, and
    [customPromptSuffix], which the component reads and sets and which is
    [undefined] in an object without it. Nothing checks what comes off the
    wire, so a field holds any value. *)
Record SystemConfig := {
  skin : value;
  audioEnabled : value;
  textEnabled : value;
  llmModel : value;
  voiceLanguageCode : value;
  voiceGender : value;
  proactiveModeEnabled : value;
  subtitlesEnabled : value;
  customPromptSuffix : value
}.

(** Modelled from the spec: the action creators that this module imports
    from the two slices, which are not under src/. *)
Inductive action :=
| setAvailableModels (models : value)
| setAvailableVoices (voices : value)
| setAvailableGenders (genders : value)
| setBotConnectedStatus (connected : value)
| setCommunicationId (id : jsstring)
| setConfig (config : SystemConfig)
| setConnectionStatus (status : ConnectionStatus.t)
| setLoading (loading : bool)
| doNothing.

(** The [message] of a snackbar: a value as it is, or the string of the
    template literal [User said: ${data.text}], given by the value whose
    ToString it holds. *)
Inductive snackbarMessage :=
| Message (v : value)
| UserSaid (text : value).

(** Response types of the two REST calls ([apis/communication], typed). A
    response that is [null] or [undefined] in spite of its type reaches
    the callbacks as an input of its own, see [input]. *)
Record ControlPanelConfigResponse := {
  models : value;
  voices : value;
  genders : value
}.

Record CreateCommunicationResponse := {
  communication_id : jsstring
}.

(* ===================================================================== *)
(** ** The world and its effects *)
(* ===================================================================== *)

Module ReadyState.
Inductive t := CONNECTING | OPEN | CLOSING | CLOSED.
#[global] Instance eq_dec : EqDecision t.
Proof. solve_decision. Defined.
End ReadyState.

Record WebSocket := {
  ws_communicationId : jsstring;
  readyState : ReadyState.t
}.

(** The one closure this module hands to [setInterval]. *)
Inductive callback := SendPing.

Record interval := {
  iv_callback : callback;
  iv_delay : Z
}.

Record world := {
  botUrl : jsstring;                      (* utils: resolved at load *)
  localStorage : gmap jsstring jsstring;
  socket : option WebSocket;              (* the module's [let socket] *)
  intervals : list interval               (* live timers, in order of creation *)
}.

Definition set_localStorage (f : gmap jsstring jsstring -> gmap jsstring jsstring)
    (w : world) : world :=
  {| botUrl := botUrl w; localStorage := f (localStorage w);
     socket := socket w; intervals := intervals w |}.

Definition set_socket (s : option WebSocket) (w : world) : world :=
  {| botUrl := botUrl w; localStorage := localStorage w;
     socket := s; intervals := intervals w |}.

Definition set_intervals (f : list interval -> list interval) (w : world) : world :=
  {| botUrl := botUrl w; localStorage := localStorage w;
     socket := socket w; intervals := f (intervals w) |}.

Inductive storageOp :=
| GetItem (key : jsstring)
| SetItem (key item : jsstring)
| RemoveItem (key : jsstring).

Inductive apiCall := getControlPanelConfig | createCommunication.

(** The thunks of this module, by name. *)
Module Thunk.
Inductive t :=
| fetchControlPanelConfig
| loadOrCreateCommunicationSuccess
| loadOrCreateCommunicationFailure
| loadOrCreateCommunication
| addNewBot
| handleSocketOnMessage
| initAndHandleWebsocket
| sendTextToLLM.
End Thunk.

(** What the module does to its surroundings, in program order. *)
Inductive event :=
| EDispatch (a : action)                      (* [dispatch] of a plain action *)
| EThunk (t : Thunk.t)                        (* [dispatch] of a thunk of this module; its body follows *)
| ESnackbar (message : snackbarMessage) (type : SnackbarType.t)
                                              (* [dispatch(showSnackbar({message, type}))] *)
| EStorage (op : storageOp)                   (* a [localStorage] call *)
| EApi (call : apiCall)                       (* a REST call of [communicationApi] *)
| EWebSocket (communicationId : jsstring)     (* [initializeWebSocket] *)
| ESend (state : ReadyState.t) (payload : value)
                                              (* [socket.send(JSON.stringify(payload))] on a socket in [state] *)
| EWindowOpen (url : jsstring).

Record result (A : Type) := {
  completed : completion A;
  final : world;
  emitted : list event
}.
Arguments completed {A} r.
Arguments final {A} r.
Arguments emitted {A} r.

(** Computations of the module: they read and change the world, emit
    events, and return or throw. *)
Definition M (A : Type) : Type := world -> result A.

#[global] Instance M_ret : MRet M := fun A a w =>
  {| completed := Normal a; final := w; emitted := [] |}.

#[global] Instance M_bind : MBind M := fun A B k m w =>
  let r := m w in
  match completed r with
  | Normal a =>
      let r' := k a (final r) in
      {| completed := completed r'; final := final r';
         emitted := emitted r ++ emitted r' |}
  | Abrupt e =>
      {| completed := Abrupt e; final := final r; emitted := emitted r |}
  end.

#[global] Instance completion_ret : MRet completion := fun A a => Normal a.

#[global] Instance completion_bind : MBind completion := fun A B k c =>
  match c with
  | Normal a => k a
  | Abrupt e => Abrupt e
  end.

Definition lift {A} (c : completion A) : M A := fun w =>
  {| completed := c; final := w; emitted := [] |}.

Definition emit (e : event) : M unit := fun w =>
  {| completed := Normal tt; final := w; emitted := [e] |}.

Definition get_world : M world := fun w =>
  {| completed := Normal w; final := w; emitted := [] |}.

Definition modify (f : world -> world) : M unit := fun w =>
  {| completed := Normal tt; final := f w; emitted := [] |}.

Definition dispatch (a : action) : M unit := emit (EDispatch a).

(** [dispatch] of a thunk of this module runs its body. *)
Definition dispatchThunk {A} (t : Thunk.t) (body : M A) : M A :=
  emit (EThunk t);; body.

(** Modelled from the spec: [showSnackbar] of [store/actions/globalActions],
    which is not under src/; its dispatch is one event. *)
Definition showSnackbar (message : snackbarMessage) (type : SnackbarType.t) : M unit :=
  emit (ESnackbar message type).

Definition localStorage_getItem (key : jsstring) : M (option jsstring) :=
  emit (EStorage (GetItem key));;
  w ← get_world; mret (localStorage w !! key).

Definition localStorage_setItem (key item : jsstring) : M unit :=
  emit (EStorage (SetItem key item));;
  modify (set_localStorage (insert key item)).

Definition localStorage_removeItem (key : jsstring) : M unit :=
  emit (EStorage (RemoveItem key));;
  modify (set_localStorage (delete key)).

Definition setInterval (cb : callback) (delay : Z) : M unit :=
  modify (set_intervals (fun l => l ++ [{| iv_callback := cb; iv_delay := delay |}])).

Definition window_open (url : jsstring) : M unit := emit (EWindowOpen url).

(** Modelled from the spec: [initializeWebSocket] of [apis], which is not
    under src/; it opens a WebSocket for the communication and registers
    the four handlers. The new socket is connecting. *)
Definition initializeWebSocket (communicationId : jsstring) : M WebSocket :=
  emit (EWebSocket communicationId);;
  mret {| ws_communicationId := communicationId;
          readyState := ReadyState.CONNECTING |}.

(** [String.prototype.trim]: WhiteSpace and LineTerminator code points. *)
Definition is_whitespace (c : N) : bool :=
  (c =? 9) || (c =? 10) || (c =? 11) || (c =? 12) || (c =? 13) || (c =? 32)
  || (c =? 160) || (c =? 5760) || ((8192 <=? c) && (c <=? 8202))
  || (c =? 8232) || (c =? 8233) || (c =? 8239) || (c =? 8287)
  || (c =? 12288) || (c =? 65279).

Fixpoint trimStart (s : jsstring) : jsstring :=
  match s with
  | [] => []
  | c :: s' => if is_whitespace c then trimStart s' else s
  end.

Definition trim (s : jsstring) : jsstring :=
  rev (trimStart (rev (trimStart s))).

(** ToBoolean of a string. *)
Definition truthy_string (s : jsstring) : bool := truthy (VString s).

(* ===================================================================== *)
(** ** [store/actions/communicationActions.ts] *)
(* ===================================================================== *)

Definition str (s : string) : value := VString (js s).

Definition fetchControlPanelConfig : M unit :=
  emit (EApi getControlPanelConfig).

(** The [onSuccess] callback of [fetchControlPanelConfig]. *)
Definition fetchControlPanelConfig_onSuccess (data : ControlPanelConfigResponse) : M unit :=
  dispatch (setAvailableModels (models data));;
  dispatch (setAvailableVoices (voices data));;
  dispatch (setAvailableGenders (genders data)).

(** The same callback on a response that is [null] or [undefined]:
    [data.models] throws. *)
Definition fetchControlPanelConfig_onSuccess_nullish : M unit :=
  lift (Abrupt TypeError).

Definition handleSocketMessageSend (data : value) : M unit :=
  w ← get_world;
  match socket w with
  | None => mret tt
  | Some s =>
      if bool_decide (readyState s = ReadyState.CONNECTING)
         || bool_decide (readyState s = ReadyState.CLOSING)
         || bool_decide (readyState s = ReadyState.CLOSED)
      then mret tt
      else emit (ESend (readyState s) data)
  end.

Definition initPing (interval : option Z) : M unit :=
  setInterval SendPing (default 5000%Z interval).

(** The body of the closure that [initPing] registers. *)
Definition runCallback (cb : callback) : M unit :=
  match cb with
  | SendPing =>
      handleSocketMessageSend
        (VObject [(js "type", VString socketSendMsgTypes.PING)])
  end.

Definition handleConnectionOnOpen : M action :=
  initPing (Some 5000%Z);;
  mret (setConnectionStatus ConnectionStatus.CONNECTED).

Definition handleSocketOnError : action :=
  setConnectionStatus ConnectionStatus.NOT_CONNECTED.

Definition handleSocketOnClose : action :=
  setConnectionStatus ConnectionStatus.NOT_CONNECTED.

Definition initAndHandleWebsocket (communicationId : jsstring) : M unit :=
  s ← initializeWebSocket communicationId;
  modify (set_socket (Some s)).

Definition loadOrCreateCommunicationSuccess (data : CreateCommunicationResponse) : M unit :=
  let communicationId := communication_id data in
  localStorage_setItem LS_COMMUNICATION_ID_KEY communicationId;;
  dispatch (setCommunicationId (communication_id data));;
  dispatch (setLoading false);;
  dispatchThunk Thunk.initAndHandleWebsocket (initAndHandleWebsocket communicationId).

(** [loadOrCreateCommunicationSuccess] on a response that is [null] or
    [undefined]: [data?.communication_id] is [undefined], which [setItem]
    stores as the string of that name, and [data.communication_id]
    throws. *)
Definition loadOrCreateCommunicationSuccess_nullish : M unit :=
  localStorage_setItem LS_COMMUNICATION_ID_KEY (js "undefined");;
  lift (Abrupt TypeError).

Definition loadOrCreateCommunicationFailure (error : value) : M unit :=
  showSnackbar
    (Message
       (coalesce
          (coalesce
             (opt_member (opt_member (opt_member error (js "response")) (js "data"))
                (js "detail"))
             (opt_member error (js "message")))
          (str "Communication creation failed!")))
    SnackbarType.ERROR;;
  dispatch (setLoading false);;
  dispatch (setConnectionStatus ConnectionStatus.NOT_CONNECTED).

(** Up to its [await]: the two callbacks of [createCommunication] run when
    the call settles. [getItem] gives a string or [null] ([None]). *)
Definition loadOrCreateCommunication : M unit :=
  dispatch (setLoading true);;
  dispatch (setConnectionStatus ConnectionStatus.CONNECTING);;
  communicationId ← localStorage_getItem LS_COMMUNICATION_ID_KEY;
  match communicationId with
  | Some id =>
      if truthy_string id then
        dispatch (setCommunicationId id);;
        dispatchThunk Thunk.initAndHandleWebsocket (initAndHandleWebsocket id)
      else emit (EApi createCommunication)
  | None => emit (EApi createCommunication)
  end.

Definition createCommunication_onSuccess (data : CreateCommunicationResponse) : M unit :=
  dispatchThunk Thunk.loadOrCreateCommunicationSuccess
    (loadOrCreateCommunicationSuccess data).

Definition createCommunication_onSuccess_nullish : M unit :=
  dispatchThunk Thunk.loadOrCreateCommunicationSuccess
    loadOrCreateCommunicationSuccess_nullish.

Definition createCommunication_onFailure (error : value) : M unit :=
  dispatchThunk Thunk.loadOrCreateCommunicationFailure
    (loadOrCreateCommunicationFailure error).

Definition addNewBot (communicationId : jsstring) : M unit :=
  w ← get_world;
  window_open (botUrl w ++ js "/?communication_id=" ++ communicationId);;
  showSnackbar (Message (str "Adding Bot")) SnackbarType.INFO.

Definition parseSocketConfig (data : value) : completion SystemConfig :=
  skin ← member data (js "skin");
  audioEnabled ← member data (js "audio_enabled");
  textEnabled ← member data (js "text_enabled");
  llmModel ← member data (js "llm_model");
  voiceLanguageCode ← member data (js "voice_language_code");
  voiceGender ← member data (js "voice_gender");
  proactiveModeEnabled ← member data (js "proactive_mode_enabled");
  subtitles_enabled ← member data (js "subtitles_enabled");
  mret {| skin := skin;
          audioEnabled := audioEnabled;
          textEnabled := textEnabled;
          llmModel := llmModel;
          voiceLanguageCode := voiceLanguageCode;
          voiceGender := voiceGender;
          proactiveModeEnabled := proactiveModeEnabled;
          subtitlesEnabled := coalesce subtitles_enabled (VBool true);
          customPromptSuffix := VUndefined (* no such member in the literal *) |}.

Definition makeSocketConfig (data : SystemConfig) : value :=
  VObject
    [(js "skin", skin data);
     (js "audio_enabled", audioEnabled data);
     (js "text_enabled", textEnabled data);
     (js "llm_model", llmModel data);
     (js "voice_language_code", voiceLanguageCode data);
     (js "voice_gender", voiceGender data);
     (js "proactive_mode_enabled", proactiveModeEnabled data);
     (js "subtitles_enabled",
       if negb (is_undefined (subtitlesEnabled data)) then subtitlesEnabled data
       else VBool true)].

Definition socketUpdateConfig (config : SystemConfig) : M action :=
  handleSocketMessageSend
    (VObject
       [(js "type", VString socketSendMsgTypes.UPDATE_CONFIG);
        (js "data", VObject [(js "config", makeSocketConfig config)])]);;
  mret doNothing.

(** The thunk returns [doNothing()] to its caller; it does not dispatch it.
    [None] is the [undefined] of the bare [return]. *)
Definition sendTextToLLM (text : jsstring) : M (option action) :=
  if negb (truthy_string text) || negb (truthy_string (trim text)) then
    showSnackbar (Message (str "Please provide text to send to the AI"))
      SnackbarType.ERROR;;
    mret None
  else
    handleSocketMessageSend
      (VObject
         [(js "type", VString socketSendMsgTypes.SEND_TEXT);
          (js "data", VObject [(js "text", VString text)])]);;
    showSnackbar (Message (str "Sent text to AI")) SnackbarType.INFO;;
    mret (Some doNothing).

(** The template literal [`User said: ${text}`]: ToString of the value
    comes before anything is dispatched. *)
Definition user_said (text : value) : completion snackbarMessage :=
  if toString_throws text then Abrupt TypeError else Normal (UserSaid text).

Definition handleSocketOnMessage (event_data : jsstring) : M unit :=
  let msg := messageToJson event_data in
  type ← lift (member msg (js "type"));
  data ← lift (member msg (js "data"));
  if strict_eq_string type socketReceiveMsgTypes.INVALID_COMMUNICATION_ID then
    localStorage_removeItem LS_COMMUNICATION_ID_KEY;;
    dispatchThunk Thunk.loadOrCreateCommunication loadOrCreateCommunication
  else if strict_eq_string type socketReceiveMsgTypes.UI_ERROR then
    message ← lift (member data (js "message"));
    showSnackbar (Message message) SnackbarType.ERROR
  else if strict_eq_string type socketReceiveMsgTypes.ERROR then
    cond ← lift (member data (js "message"));
    if truthy cond then
      message ← lift (member data (js "message"));
      showSnackbar (Message message) SnackbarType.ERROR
    else mret tt
  else if strict_eq_string type socketReceiveMsgTypes.SYSTEM_CONFIG then
    config ← lift (member data (js "config"));
    parsed ← lift (parseSocketConfig config);
    dispatch (setConfig parsed)
  else if strict_eq_string type socketReceiveMsgTypes.CLOSE_CONNECTION then
    message ← lift (member data (js "message"));
    showSnackbar (Message message) SnackbarType.ERROR
  else if strict_eq_string type socketReceiveMsgTypes.IS_BOT_CONNECTED then
    cond ← lift (member data (js "message"));
    (if truthy cond then
       message ← lift (member data (js "message"));
       showSnackbar (Message message) SnackbarType.INFO
     else mret tt);;
    connected ← lift (member data (js "value"));
    dispatch (setBotConnectedStatus connected)
  else if strict_eq_string type socketReceiveMsgTypes.PING_STATE then
    connected ← lift (member data (js "is_bot_connected"));
    dispatch (setBotConnectedStatus (coalesce connected (VBool false)))
  else if strict_eq_string type socketReceiveMsgTypes.USER_INPUT then
    if truthy (opt_member data (js "text")) then
      text ← lift (member data (js "text"));
      message ← lift (user_said text);
      showSnackbar message SnackbarType.INFO
    else if truthy (opt_member data (js "audio")) then
      showSnackbar (Message (str "User sent audio (forwarded to control panel)"))
        SnackbarType.INFO
    else mret tt
  else if strict_eq_string type socketReceiveMsgTypes.NEW_CONTROL_PANEL_DETECTED then
    message ← lift (member data (js "message"));
    showSnackbar (Message message) SnackbarType.ERROR
  else
    dispatch doNothing.

(** The four handlers as [initAndHandleWebsocket] registers them. *)
Definition socket_onOpen : M unit :=
  a ← handleConnectionOnOpen; dispatch a.

Definition socket_onMessage (event_data : jsstring) : M unit :=
  dispatchThunk Thunk.handleSocketOnMessage (handleSocketOnMessage event_data).

Definition socket_onError : M unit := dispatch handleSocketOnError.

Definition socket_onClose : M unit := dispatch handleSocketOnClose.

(* ===================================================================== *)
(** ** The module in its surroundings *)
(* ===================================================================== *)

(** What reaches the module: the dispatches of the user interface, the
    settling of the REST calls, the events of the socket, the timers, and
    the browser moving the socket through its states. The last two are
    the success callbacks of the REST calls on a response that is [null]
    or [undefined]. *)
Inductive input :=
| Ui_fetchControlPanelConfig
| Ui_loadOrCreateCommunication
| Ui_addNewBot (communicationId : jsstring)
| Ui_socketUpdateConfig (config : SystemConfig)
| Ui_sendTextToLLM (text : jsstring)
| Api_getControlPanelConfig_onSuccess (data : ControlPanelConfigResponse)
| Api_createCommunication_onSuccess (data : CreateCommunicationResponse)
| Api_createCommunication_onFailure (error : value)
| Socket_open
| Socket_message (event_data : jsstring)
| Socket_error
| Socket_close
| Timer_fires (i : nat)
| Browser_readyState (state : ReadyState.t)
| Api_getControlPanelConfig_onSuccess_nullish
| Api_createCommunication_onSuccess_nullish.

Definition browser_readyState (state : ReadyState.t) (w : world) : world :=
  set_socket
    ((fun s => {| ws_communicationId := ws_communicationId s; readyState := state |})
       <$> socket w) w.

Definition step (i : input) : M unit :=
  match i with
  | Ui_fetchControlPanelConfig =>
      dispatchThunk Thunk.fetchControlPanelConfig fetchControlPanelConfig
  | Ui_loadOrCreateCommunication =>
      dispatchThunk Thunk.loadOrCreateCommunication loadOrCreateCommunication
  | Ui_addNewBot communicationId =>
      dispatchThunk Thunk.addNewBot (addNewBot communicationId)
  | Ui_socketUpdateConfig config =>
      a ← socketUpdateConfig config; dispatch a
  | Ui_sendTextToLLM text =>
      dispatchThunk Thunk.sendTextToLLM (sendTextToLLM text);; mret tt
  | Api_getControlPanelConfig_onSuccess data =>
      fetchControlPanelConfig_onSuccess data
  | Api_createCommunication_onSuccess data =>
      createCommunication_onSuccess data
  | Api_createCommunication_onFailure error =>
      createCommunication_onFailure error
  | Socket_open => socket_onOpen
  | Socket_message event_data => socket_onMessage event_data
  | Socket_error => socket_onError
  | Socket_close => socket_onClose
  | Timer_fires i =>
      w ← get_world;
      match intervals w !! i with
      | Some iv => runCallback (iv_callback iv)
      | None => mret tt
      end
  | Browser_readyState state => modify (browser_readyState state)
  | Api_getControlPanelConfig_onSuccess_nullish =>
      fetchControlPanelConfig_onSuccess_nullish
  | Api_createCommunication_onSuccess_nullish =>
      createCommunication_onSuccess_nullish
  end.

(** A run: an exception ends its handler, not the page. *)
Fixpoint run (inputs : list input) (w : world) : world * list event :=
  match inputs with
  | [] => (w, [])
  | i :: rest =>
      let r := step i w in
      let '(w', evs) := run rest (final r) in
      (w', emitted r ++ evs)
  end.

(** Modelled from the spec: the [config] state of
    [store/slices/communicationSlice], whose reducer is not under src/;
    the spec has last write wins, so [setConfig] stores its payload. *)
Definition configReducer (config : SystemConfig) (a : action) : SystemConfig :=
  match a with
  | setConfig payload => payload
  | _ => config
  end.

Definition config_after (config : SystemConfig) (evs : list event) : SystemConfig :=
  fold_left
    (fun c e => match e with EDispatch a => configReducer c a | _ => c end)
    evs config.

(** The connection statuses that a sequence of events assigns, in order. *)
Definition status_sets (evs : list event) : list ConnectionStatus.t :=
  omap (fun e => match e with
                 | EDispatch (setConnectionStatus s) => Some s
                 | _ => None
                 end) evs.

(** The interface [SocketMessageResponse]: an object whose [type] is a
    string and whose [data] is an object. *)
Definition isSocketMessageResponse (v : value) : bool :=
  match v with
  | VObject _ =>
      match read_prop v (js "type"), read_prop v (js "data") with
      | VString _, VObject _ => true
      | _, _ => false
      end
  | _ => false
  end.

(** A world before anything ran. *)
Definition initial_world : world :=
  {| botUrl := js "http://localhost:5000"; localStorage := ∅;
     socket := None; intervals := [] |}.

(** A world whose socket is open. *)
Definition open_world : world :=
  set_socket (Some {| ws_communicationId := js "c0ffee";
                      readyState := ReadyState.OPEN |}) initial_world.

(* ===================================================================== *)
(** ** Vocabulary of the properties *)
(* ===================================================================== *)

(** Results, spelled out. *)
Definition returned {A} (a : A) (evs : list event) (w : world) : result A :=
  {| completed := Normal a; final := w; emitted := evs |}.

Definition thrown {A} (e : exn) (evs : list event) (w : world) : result A :=
  {| completed := Abrupt e; final := w; emitted := evs |}.

(** A send reaches the wire in [w] when the socket is there and open. *)
Definition sends (w : world) (payload : value) : list event :=
  match socket w with
  | Some s =>
      match readyState s with
      | ReadyState.OPEN => [ESend ReadyState.OPEN payload]
      | _ => []
      end
  | None => []
  end.

(** The states of the socket at the sends of a trace. *)
Definition send_states (evs : list event) : list ReadyState.t :=
  omap (fun e => match e with ESend st _ => Some st | _ => None end) evs.

(** The keys of the [localStorage] calls of a trace. *)
Definition storage_key (op : storageOp) : jsstring :=
  match op with
  | GetItem k | SetItem k _ | RemoveItem k => k
  end.

Definition storage_keys (evs : list event) : list jsstring :=
  omap (fun e => match e with EStorage op => Some (storage_key op) | _ => None end) evs.

(** The [type] of an inbound message, [undefined] when it has none. *)
Definition message_type (event_data : jsstring) : value :=
  opt_member (messageToJson event_data) (js "type").

(** Dispatches of [loadOrCreateCommunication], and the inputs that make one. *)
Definition is_reconnect (e : event) : bool :=
  match e with
  | EThunk Thunk.loadOrCreateCommunication => true
  | _ => false
  end.

Definition asks_connection (i : input) : bool :=
  match i with
  | Ui_loadOrCreateCommunication => true
  | Socket_message event_data =>
      strict_eq_string (message_type event_data)
        socketReceiveMsgTypes.INVALID_COMMUNICATION_ID
  | _ => false
  end.

(** Events that only reach the store or the snackbar. *)
Definition passive (e : event) : bool :=
  match e with
  | ESnackbar _ _
  | EDispatch (setConfig _)
  | EDispatch (setBotConnectedStatus _)
  | EDispatch doNothing => true
  | _ => false
  end.

(** The timer of [initPing(5000)]. *)
Definition heartbeat : interval :=
  {| iv_callback := SendPing; iv_delay := 5000 |}.

Definition is_open (i : input) : bool :=
  match i with
  | Socket_open => true
  | _ => false
  end.

(** The statuses that an input assigns. *)
Definition status_of_input (i : input) : list ConnectionStatus.t :=
  match i with
  | Ui_loadOrCreateCommunication => [ConnectionStatus.CONNECTING]
  | Socket_message _ =>
      if asks_connection i then [ConnectionStatus.CONNECTING] else []
  | Socket_open => [ConnectionStatus.CONNECTED]
  | Socket_error | Socket_close | Api_createCommunication_onFailure _ =>
      [ConnectionStatus.NOT_CONNECTED]
  | _ => []
  end.

(** What [loadOrCreateCommunication] emits after removing or reading the
    key: with an id it opens the socket, without one it asks for one. *)
Definition connect_events (stored : option jsstring) : list event :=
  [EDispatch (setLoading true);
   EDispatch (setConnectionStatus ConnectionStatus.CONNECTING);
   EStorage (GetItem LS_COMMUNICATION_ID_KEY)]
  ++ match stored with
     | Some (c :: id) =>
         [EDispatch (setCommunicationId (c :: id));
          EThunk Thunk.initAndHandleWebsocket;
          EWebSocket (c :: id)]
     | _ => [EApi createCommunication]
     end.

Definition connect_world (stored : option jsstring) (w : world) : world :=
  match stored with
  | Some (c :: id) =>
      set_socket (Some {| ws_communicationId := c :: id;
                          readyState := ReadyState.CONNECTING |}) w
  | _ => w
  end.

(** The payloads that leave through the socket. *)
Definition text_payload (text : jsstring) : value :=
  VObject [(js "type", VString socketSendMsgTypes.SEND_TEXT);
           (js "data", VObject [(js "text", VString text)])].

Definition config_payload (config : SystemConfig) : value :=
  VObject [(js "type", VString socketSendMsgTypes.UPDATE_CONFIG);
           (js "data", VObject [(js "config", makeSocketConfig config)])].

Definition ping_payload : value :=
  VObject [(js "type", VString socketSendMsgTypes.PING)].

(** A case of the router that shows [data.message]: it throws when [data]
    is [null] or [undefined]. *)
Definition snackbar_of (data : value) (type : SnackbarType.t) (w : world) : result unit :=
  if nullish data then thrown TypeError [] w
  else returned tt [ESnackbar (Message (read_prop data (js "message"))) type] w.

(* ===================================================================== *)
(** ** The skins of [utils/index.ts] *)
(* ===================================================================== *)

Module Skins.
Inductive t := simple | fullbot | faceonly.

(** The string of each member. *)
Definition to_string (s : t) : jsstring :=
  match s with
  | simple => js "simple"
  | fullbot => js "fullbot"
  | faceonly => js "faceonly"
  end.

Definition all : list t := [simple; fullbot; faceonly].
End Skins.

Record SkinData := {
  sk_id : Skins.t;
  sk_name : jsstring;
  sk_url : jsstring
}.

(** [skinsList], for the bot URL that the module resolved. *)
Definition skinsList (bot : jsstring) : list SkinData :=
  [ {| sk_id := Skins.simple; sk_name := js "Simple";
       sk_url := bot ++ js "/assets/skins/simple.svg" |};
    {| sk_id := Skins.fullbot; sk_name := js "Full Bot";
       sk_url := bot ++ js "/assets/skins/fullbot.png" |};
    {| sk_id := Skins.faceonly; sk_name := js "Face Only";
       sk_url := bot ++ js "/assets/skins/faceonly.png" |} ].

(* ===================================================================== *)
(** ** The control panel component *)
(* ===================================================================== *)

(** The handlers of the component [ControlPanel] that dispatch into this
    module. A handler reads the values of the render it belongs to and
    yields the dispatches it makes, as inputs of the module in their
    order. [handlePromptSubmit] (two [fetch] calls and a [JSON.stringify])
    is not modelled; the configuration it dispatches is
    [{...config, customPromptSuffix: customPrompt}]. *)

(** Modelled from the spec: what the component selects from the state of
    [store/slices/communicationSlice], which is not under src/: the
    communication id ([None] while there is none), the configuration and
    the list of models. *)
Record CommunicationState := {
  st_communicationId : option jsstring;
  st_config : SystemConfig;
  st_availableModels : list value
}.

(** The [useState] cells that [handleSendToAI] touches. *)
Record PanelState := {
  userInput : jsstring;
  promptResponse : jsstring
}.

(** [{...config, [name]: v}] as far as the nine fields go: a name that
    is none of them leaves them as they are. *)
Definition with_field (name : jsstring) (v : value) (c : SystemConfig) : SystemConfig :=
  {| skin := if bool_decide (name = js "skin") then v else skin c;
     audioEnabled := if bool_decide (name = js "audioEnabled") then v else audioEnabled c;
     textEnabled := if bool_decide (name = js "textEnabled") then v else textEnabled c;
     llmModel := if bool_decide (name = js "llmModel") then v else llmModel c;
     voiceLanguageCode :=
       if bool_decide (name = js "voiceLanguageCode") then v else voiceLanguageCode c;
     voiceGender := if bool_decide (name = js "voiceGender") then v else voiceGender c;
     proactiveModeEnabled :=
       if bool_decide (name = js "proactiveModeEnabled") then v
       else proactiveModeEnabled c;
     subtitlesEnabled :=
       if bool_decide (name = js "subtitlesEnabled") then v else subtitlesEnabled c;
     customPromptSuffix :=
       if bool_decide (name = js "customPromptSuffix") then v
       else customPromptSuffix c |}.

(** [!v]. *)
Definition js_not (v : value) : value := VBool (negb (truthy v)).

Definition handleAddBot (st : CommunicationState) : list input :=
  match st_communicationId st with
  | Some communicationId =>
      if truthy_string communicationId then [Ui_addNewBot communicationId] else []
  | None => []
  end.

Definition handleMicClick (st : CommunicationState) : list input :=
  let config := st_config st in
  [Ui_socketUpdateConfig
     (with_field (js "audioEnabled") (js_not (audioEnabled config)) config)].

Definition handleKeyboardClick (st : CommunicationState) : list input :=
  let config := st_config st in
  [Ui_socketUpdateConfig
     (with_field (js "textEnabled") (js_not (textEnabled config)) config)].

Definition handleSkinChange (st : CommunicationState) (skinData : SkinData) : list input :=
  [Ui_socketUpdateConfig
     (with_field (js "skin") (VString (Skins.to_string (sk_id skinData))) (st_config st))].

Definition possibleFields : list jsstring :=
  [js "llmModel"; js "voiceLanguageCode"; js "voiceGender"].

(** [e.target.name] and [e.target.value] are the two strings. *)
Definition handleSelectInput (st : CommunicationState) (name item : jsstring) : list input :=
  if negb (bool_decide (name ∈ possibleFields)) || negb (truthy_string item) then []
  else [Ui_socketUpdateConfig (with_field name (VString item) (st_config st))].

Definition handleProactiveModeClick (st : CommunicationState) : list input :=
  let config := st_config st in
  [Ui_socketUpdateConfig
     (with_field (js "proactiveModeEnabled") (js_not (proactiveModeEnabled config)) config)].

Definition handleSubtitlesToggle (st : CommunicationState) : list input :=
  let config := st_config st in
  [Ui_socketUpdateConfig
     (with_field (js "subtitlesEnabled") (js_not (subtitlesEnabled config)) config)].

(** The effect on [availableModels] and [config.llmModel]. *)
Definition defaultModelEffect (st : CommunicationState) : list input :=
  let config := st_config st in
  match st_availableModels st with
  | first :: _ =>
      if negb (truthy (llmModel config))
      then [Ui_socketUpdateConfig (with_field (js "llmModel") first config)]
      else []
  | [] => []
  end.

(** The two marks of the panel's messages, U+274C and U+2705. *)
Definition cross_mark : jsstring := [10060].
Definition check_mark : jsstring := [9989].

(** [handleSendToAI]: the new cells, and the dispatch that follows once
    the module is imported. *)
Definition handleSendToAI (st : CommunicationState) (p : PanelState)
  : PanelState * list input :=
  if negb (match st_communicationId st with
           | Some communicationId => truthy_string communicationId
           | None => false
           end)
  then ({| userInput := userInput p;
           promptResponse := cross_mark ++ js " Communication id not set" |}, [])
  else if negb (truthy_string (trim (userInput p)))
  then ({| userInput := userInput p;
           promptResponse :=
             cross_mark ++ js " Please enter a message to send to the AI." |}, [])
  else ({| userInput := [];
           promptResponse := check_mark ++ js " Sent message to AI" |},
        [Ui_sendTextToLLM (userInput p)]).

(** The class of a skin in the list: selected when [config.skin === id]. *)
Definition skin_selected (st : CommunicationState) (skinData : SkinData) : bool :=
  strict_eq_string (skin (st_config st)) (Skins.to_string (sk_id skinData)).

(* ===================================================================== *)
(** ** More vocabulary *)
(* ===================================================================== *)

(** A value that a JSON text can denote: no [undefined] in it. *)
Fixpoint json_shaped (v : value) : bool :=
  match v with
  | VUndefined => false
  | VArray items => forallb json_shaped items
  | VObject props => forallb (fun kv => json_shaped (snd kv)) props
  | _ => true
  end.

(** The cases of the router that read a property of [data] without [?.]. *)
Definition reads_data (type : value) : bool :=
  strict_eq_string type socketReceiveMsgTypes.UI_ERROR
  || strict_eq_string type socketReceiveMsgTypes.ERROR
  || strict_eq_string type socketReceiveMsgTypes.SYSTEM_CONFIG
  || strict_eq_string type socketReceiveMsgTypes.CLOSE_CONNECTION
  || strict_eq_string type socketReceiveMsgTypes.IS_BOT_CONNECTED
  || strict_eq_string type socketReceiveMsgTypes.PING_STATE
  || strict_eq_string type socketReceiveMsgTypes.NEW_CONTROL_PANEL_DETECTED.

(** The decoded messages on which the router throws: [null]; a case
    that reads a property of a [data] that is [null] or missing; a
    SYSTEM_CONFIG whose [data.config] is [null] or missing; a USER_INPUT
    whose [data.text] is truthy and has no string. *)
Definition router_throws (msg : value) : bool :=
  nullish msg
  || (reads_data (read_prop msg (js "type"))
      && (nullish (read_prop msg (js "data"))
          || (strict_eq_string (read_prop msg (js "type"))
                socketReceiveMsgTypes.SYSTEM_CONFIG
              && nullish (read_prop (read_prop msg (js "data")) (js "config")))))
  || (strict_eq_string (read_prop msg (js "type")) socketReceiveMsgTypes.USER_INPUT
      && truthy (opt_member (read_prop msg (js "data")) (js "text"))
      && toString_throws (read_prop (read_prop msg (js "data")) (js "text"))).

(** The inputs on which the module's code throws. *)
Definition input_throws (i : input) : bool :=
  match i with
  | Socket_message event_data => router_throws (messageToJson event_data)
  | Api_getControlPanelConfig_onSuccess_nullish
  | Api_createCommunication_onSuccess_nullish => true
  | _ => false
  end.

(** A creation that answered [null] or [undefined]. *)
Definition null_creation (i : input) : bool :=
  match i with
  | Api_createCommunication_onSuccess_nullish => true
  | _ => false
  end.

(** The members that this module reads from what [JSON.parse] made. *)
Definition module_keys : list jsstring :=
  [js "type"; js "data"; js "message"; js "config"; js "value";
   js "is_bot_connected"; js "text"; js "audio";
   js "skin"; js "audio_enabled"; js "text_enabled"; js "llm_model";
   js "voice_language_code"; js "voice_gender"; js "proactive_mode_enabled";
   js "subtitles_enabled"].

(** The payloads of the sends of a trace. *)
Definition send_payloads (evs : list event) : list value :=
  omap (fun e => match e with ESend _ payload => Some payload | _ => None end) evs.

(** The stored id, when there is one, is the id of the socket, when there
    is one. *)
Definition socket_matches_storage (w : world) : Prop :=
  forall id s,
    localStorage w !! LS_COMMUNICATION_ID_KEY = Some id ->
    socket w = Some s ->
    ws_communicationId s = id.

(** [subtitlesEnabled] with the default of the wire in place of [null] and
    [undefined]. *)
Definition with_default_subtitles (c : SystemConfig) : SystemConfig :=
  with_field (js "subtitlesEnabled") (coalesce (subtitlesEnabled c) (VBool true)) c.

(** The configuration as it comes back from the wire: the default in
    place of a missing [subtitlesEnabled], and no [customPromptSuffix]. *)
Definition as_echoed (c : SystemConfig) : SystemConfig :=
  with_field (js "customPromptSuffix") VUndefined (with_default_subtitles c).

(** The wire names of the eight fields. *)
Definition wire_fields : list jsstring :=
  [js "skin"; js "audio_enabled"; js "text_enabled"; js "llm_model";
   js "voice_language_code"; js "voice_gender"; js "proactive_mode_enabled";
   js "subtitles_enabled"].

(** The wire name of a field of the client configuration. *)
Definition wire_name (name : jsstring) : jsstring :=
  if bool_decide (name = js "audioEnabled") then js "audio_enabled"
  else if bool_decide (name = js "textEnabled") then js "text_enabled"
  else if bool_decide (name = js "llmModel") then js "llm_model"
  else if bool_decide (name = js "voiceLanguageCode") then js "voice_language_code"
  else if bool_decide (name = js "voiceGender") then js "voice_gender"
  else if bool_decide (name = js "proactiveModeEnabled") then js "proactive_mode_enabled"
  else if bool_decide (name = js "subtitlesEnabled") then js "subtitles_enabled"
  else name.

(** The parser's states that hold JSON-shaped values only. *)
Definition frame_shaped (f : JSON.frame) : bool :=
  match f with
  | JSON.FArr acc => forallb json_shaped acc
  | JSON.FObj acc | JSON.FObjKey acc _ => forallb (fun kv => json_shaped (snd kv)) acc
  end.

Definition pstate_shaped (p : JSON.pstate) : bool :=
  match p with
  | JSON.PValue st _ | JSON.PKey st _ | JSON.PColon st _ | JSON.PAfter st =>
      forallb frame_shaped st
  | JSON.PDone v => json_shaped v
  end.

(** [after] differs from [before] on the wire in the field [key], which
    is [v], and in nothing else. *)
Definition changes_one_wire_field (before after : SystemConfig) (key : jsstring)
    (v : value) : Prop :=
  read_prop (makeSocketConfig after) key = v
  /\ forall k,
       In k wire_fields -> k <> key ->
       read_prop (makeSocketConfig after) k = read_prop (makeSocketConfig before) k.

(** The dispatches [ds] are one update of the configuration to [config]:
    it goes out when the socket is open, and changes nothing here. *)
Definition is_config_update (ds : list input) (config : SystemConfig) : Prop :=
  ds = [Ui_socketUpdateConfig config]
  /\ forall w,
       run ds w = (w, sends w (config_payload config) ++ [EDispatch doNothing]).

(** The state with another configuration. *)
Definition with_config (config : SystemConfig) (st : CommunicationState)
  : CommunicationState :=
  {| st_communicationId := st_communicationId st;
     st_config := config;
     st_availableModels := st_availableModels st |}.

Arguments send_payloads : simpl never.

Arguments sends : simpl never.
Arguments send_states : simpl never.
Arguments storage_keys : simpl never.
Arguments status_sets : simpl never.

(* ===================================================================== *)
(** ** Properties *)
(* ===================================================================== *)

Ltac unfold_M :=
  unfold dispatchThunk, showSnackbar, dispatch, window_open,
    localStorage_getItem, localStorage_setItem, localStorage_removeItem,
    setInterval, initializeWebSocket;
  unfold mbind, M_bind, mret, M_ret, lift, emit, get_world, modify;
  cbn [completed final emitted app].

(** Evaluate the comparisons of two string constants. *)
Ltac eval_tests :=
  repeat match goal with
    | |- context [strict_eq_string (VString ?a) ?b] =>
        let v := eval vm_compute in (strict_eq_string (VString a) b) in
        change (strict_eq_string (VString a) b) with v
    end;
  cbv beta iota; cbn [completed final emitted app].

(** Enter the router with the [type] of the message known. *)
Ltac route H :=
  unfold handleSocketOnMessage, member in *;
  destruct (nullish (messageToJson _)); [discriminate H|];
  injection H as H; unfold_M; rewrite H; eval_tests.

(** *** The model at work *)

Example parse_envelope :
  JSON.parse (jq " { 'type' : 'PING_STATE', 'data' : { 'is_bot_connected' : true } } ")
  = Some (VObject [(js "type", str "PING_STATE");
                   (js "data", VObject [(js "is_bot_connected", VBool true)])]).
Proof. reflexivity. Qed.

Example parse_scalars :
  JSON.parse (jq "[null, -2.50e3, 'a\u0041\n']")
  = Some (VArray [VNull; VNumber (Number true 250 1); VString [97; 65; 10]]).
Proof. reflexivity. Qed.

Example parse_rejects :
  map JSON.parse [jq ""; jq "[1,]"; jq "{'a':1,}"; jq "01"; jq "nul"; jq "'a"; jq "{} x"]
  = [None; None; None; None; None; None; None].
Proof. reflexivity. Qed.

Example later_member_wins :
  read_prop (VObject [(js "type", str "ERROR"); (js "type", str "UI_ERROR")]) (js "type")
  = str "UI_ERROR".
Proof. reflexivity. Qed.

Example tiny_number_is_falsy :
  map truthy [VNumber (Number false 1 (-400)); VNumber (Number false 1 (-300));
              VNumber (Number true 0 0); str ""; str "0"; VArray []]
  = [false; true; false; false; true; true].
Proof. reflexivity. Qed.

Example trim_both_ends : trim (js "  to the bot ") = js "to the bot".
Proof. reflexivity. Qed.

Example values_without_string :
  map (fun text => toString_throws (messageToJson (jq text)))
    ["{'toString':1}"; "{'valueOf':1}"; "[1,[{'toString':null}]]"; "[null,{}]"; "'toString'"]%string
  = [true; false; true; false; false].
Proof. reflexivity. Qed.

Example user_input_without_string :
  handleSocketOnMessage (jq "{'type':'USER_INPUT','data':{'text':{'toString':1}}}") open_world
  = thrown TypeError [] open_world.
Proof. reflexivity. Qed.

Example null_creation_response :
  step Api_createCommunication_onSuccess_nullish open_world
  = thrown TypeError
      [EThunk Thunk.loadOrCreateCommunicationSuccess;
       EStorage (SetItem LS_COMMUNICATION_ID_KEY (js "undefined"))]
      (set_localStorage (insert LS_COMMUNICATION_ID_KEY (js "undefined")) open_world).
Proof. reflexivity. Qed.

Example a_session :
  snd (run [Ui_loadOrCreateCommunication;
            Api_createCommunication_onSuccess {| communication_id := js "c0ffee" |};
            Timer_fires 0;
            Browser_readyState ReadyState.OPEN;
            Socket_open;
            Timer_fires 0;
            Socket_message (jq "{'type':'PING_STATE','data':{'is_bot_connected':true}}");
            Socket_close]
         initial_world)
  = [EThunk Thunk.loadOrCreateCommunication;
     EDispatch (setLoading true);
     EDispatch (setConnectionStatus ConnectionStatus.CONNECTING);
     EStorage (GetItem LS_COMMUNICATION_ID_KEY);
     EApi createCommunication;
     EThunk Thunk.loadOrCreateCommunicationSuccess;
     EStorage (SetItem LS_COMMUNICATION_ID_KEY (js "c0ffee"));
     EDispatch (setCommunicationId (js "c0ffee"));
     EDispatch (setLoading false);
     EThunk Thunk.initAndHandleWebsocket;
     EWebSocket (js "c0ffee");
     EDispatch (setConnectionStatus ConnectionStatus.CONNECTED);
     ESend ReadyState.OPEN ping_payload;
     EThunk Thunk.handleSocketOnMessage;
     EDispatch (setBotConnectedStatus (VBool true));
     EDispatch (setConnectionStatus ConnectionStatus.NOT_CONNECTED)].
Proof. reflexivity. Qed.

(** *** The socket guard *)

Lemma handleSocketMessageSend_eq data w :
  handleSocketMessageSend data w = returned tt (sends w data) w.
Proof.
  unfold handleSocketMessageSend, sends, returned. unfold_M.
  destruct (socket w) as [s|]; [|reflexivity].
  destruct (readyState s); reflexivity.
Qed.

Lemma sends_open w payload :
  Forall (fun st => st = ReadyState.OPEN) (send_states (sends w payload)).
Proof.
  unfold sends. destruct (socket w) as [s|]; [|constructor].
  destruct (readyState s); repeat constructor.
Qed.

(** *** The connection *)

Lemma initAndHandleWebsocket_eq id w :
  initAndHandleWebsocket id w =
  returned tt [EWebSocket id]
    (set_socket (Some {| ws_communicationId := id;
                         readyState := ReadyState.CONNECTING |}) w).
Proof. reflexivity. Qed.

Lemma loadOrCreateCommunication_eq w :
  let stored := localStorage w !! LS_COMMUNICATION_ID_KEY in
  loadOrCreateCommunication w =
  returned tt (connect_events stored) (connect_world stored w).
Proof.
  unfold loadOrCreateCommunication, connect_events, connect_world, returned.
  unfold_M.
  destruct (localStorage w !! LS_COMMUNICATION_ID_KEY) as [[|c id]|]; reflexivity.
Qed.

Lemma loadOrCreateCommunicationSuccess_eq data w :
  loadOrCreateCommunicationSuccess data w =
  returned tt
    [EStorage (SetItem LS_COMMUNICATION_ID_KEY (communication_id data));
     EDispatch (setCommunicationId (communication_id data));
     EDispatch (setLoading false);
     EThunk Thunk.initAndHandleWebsocket;
     EWebSocket (communication_id data)]
    (set_socket (Some {| ws_communicationId := communication_id data;
                         readyState := ReadyState.CONNECTING |})
       (set_localStorage (insert LS_COMMUNICATION_ID_KEY (communication_id data)) w)).
Proof. reflexivity. Qed.

Lemma loadOrCreateCommunicationFailure_eq error w :
  exists message,
    loadOrCreateCommunicationFailure error w =
    returned tt
      [ESnackbar message SnackbarType.ERROR;
       EDispatch (setLoading false);
       EDispatch (setConnectionStatus ConnectionStatus.NOT_CONNECTED)] w.
Proof. eexists. reflexivity. Qed.

(** *** Trimming *)

Lemma trimStart_nil s : trimStart s = [] <-> forallb is_whitespace s = true.
Proof.
  induction s as [|c s IH]; cbn; [tauto|].
  destruct (is_whitespace c); cbn; [exact IH|].
  split; discriminate.
Qed.

Lemma trimStart_all s : forallb is_whitespace (trimStart s) = true -> trimStart s = [].
Proof.
  induction s as [|c s IH]; cbn; [reflexivity|].
  destruct (is_whitespace c) eqn:Hc; [exact IH|].
  cbn. rewrite Hc. discriminate.
Qed.

Lemma forallb_rev {A} (f : A -> bool) l : forallb f (rev l) = forallb f l.
Proof.
  induction l as [|a l IH]; cbn; [reflexivity|].
  rewrite forallb_app, IH. cbn. destruct (f a), (forallb f l); reflexivity.
Qed.

Lemma trim_nil s : trim s = [] <-> forallb is_whitespace s = true.
Proof.
  unfold trim. split.
  - intros H. apply (f_equal (@rev N)) in H. rewrite rev_involutive in H. cbn in H.
    apply trimStart_nil in H. rewrite forallb_rev in H.
    apply trimStart_nil. apply trimStart_all. exact H.
  - intros H. apply trimStart_nil in H. rewrite H. reflexivity.
Qed.

Lemma truthy_string_nil s : truthy_string s = false <-> s = [].
Proof. destruct s; cbn; split; congruence. Qed.

Lemma blank_test text :
  negb (truthy_string text) || negb (truthy_string (trim text))
  = forallb is_whitespace text.
Proof.
  destruct (forallb is_whitespace text) eqn:Hb.
  - apply trim_nil in Hb. rewrite Hb. cbn. apply orb_true_r.
  - destruct (truthy_string (trim text)) eqn:Ht.
    + destruct text; [discriminate Hb|reflexivity].
    + apply truthy_string_nil, trim_nil in Ht. congruence.
Qed.

Lemma sendTextToLLM_eq text w :
  sendTextToLLM text w =
  if forallb is_whitespace text then
    returned None
      [ESnackbar (Message (str "Please provide text to send to the AI")) SnackbarType.ERROR] w
  else
    returned (Some doNothing)
      (sends w (text_payload text)
       ++ [ESnackbar (Message (str "Sent text to AI")) SnackbarType.INFO]) w.
Proof.
  unfold sendTextToLLM. rewrite blank_test.
  destruct (forallb is_whitespace text); [reflexivity|].
  unfold_M. rewrite handleSocketMessageSend_eq. reflexivity.
Qed.

(** *** The router, case by case *)

Lemma strict_eq_string_ne t c : t <> c -> strict_eq_string (VString t) c = false.
Proof. intros H. apply bool_decide_eq_false_2. exact H. Qed.

Lemma strict_eq_string_true v c : strict_eq_string v c = true -> v = VString c.
Proof.
  destruct v; cbn; try discriminate.
  intros H. apply bool_decide_eq_true_1 in H. congruence.
Qed.

Lemma route_INVALID_COMMUNICATION_ID d w :
  member (messageToJson d) (js "type")
  = Normal (VString socketReceiveMsgTypes.INVALID_COMMUNICATION_ID) ->
  handleSocketOnMessage d w =
  returned tt
    (EStorage (RemoveItem LS_COMMUNICATION_ID_KEY)
     :: EThunk Thunk.loadOrCreateCommunication :: connect_events None)
    (set_localStorage (delete LS_COMMUNICATION_ID_KEY) w).
Proof.
  intros H. route H.
  rewrite loadOrCreateCommunication_eq. cbn zeta.
  replace (localStorage (set_localStorage _ w) !! _) with (@None jsstring).
  - reflexivity.
  - symmetry. apply lookup_delete_eq.
Qed.

Lemma route_UI_ERROR d w :
  member (messageToJson d) (js "type") = Normal (VString socketReceiveMsgTypes.UI_ERROR) ->
  handleSocketOnMessage d w =
  snackbar_of (read_prop (messageToJson d) (js "data")) SnackbarType.ERROR w.
Proof.
  intros H. route H. unfold snackbar_of. destruct (nullish _); reflexivity.
Qed.

Lemma route_CLOSE_CONNECTION d w :
  member (messageToJson d) (js "type") = Normal (VString socketReceiveMsgTypes.CLOSE_CONNECTION) ->
  handleSocketOnMessage d w =
  snackbar_of (read_prop (messageToJson d) (js "data")) SnackbarType.ERROR w.
Proof.
  intros H. route H. unfold snackbar_of. destruct (nullish _); reflexivity.
Qed.

Lemma route_NEW_CONTROL_PANEL_DETECTED d w :
  member (messageToJson d) (js "type")
  = Normal (VString socketReceiveMsgTypes.NEW_CONTROL_PANEL_DETECTED) ->
  handleSocketOnMessage d w =
  snackbar_of (read_prop (messageToJson d) (js "data")) SnackbarType.ERROR w.
Proof.
  intros H. route H. unfold snackbar_of. destruct (nullish _); reflexivity.
Qed.

Lemma route_ERROR d w :
  member (messageToJson d) (js "type") = Normal (VString socketReceiveMsgTypes.ERROR) ->
  let data := read_prop (messageToJson d) (js "data") in
  handleSocketOnMessage d w =
  if nullish data then thrown TypeError [] w
  else if truthy (read_prop data (js "message"))
       then snackbar_of data SnackbarType.ERROR w
       else returned tt [] w.
Proof.
  intros H. route H. unfold snackbar_of.
  destruct (nullish _); [reflexivity|]. cbn.
  destruct (truthy _); reflexivity.
Qed.

Lemma route_IS_BOT_CONNECTED d w :
  member (messageToJson d) (js "type") = Normal (VString socketReceiveMsgTypes.IS_BOT_CONNECTED) ->
  let data := read_prop (messageToJson d) (js "data") in
  handleSocketOnMessage d w =
  if nullish data then thrown TypeError [] w
  else returned tt
         ((if truthy (read_prop data (js "message"))
           then [ESnackbar (Message (read_prop data (js "message"))) SnackbarType.INFO]
           else [])
          ++ [EDispatch (setBotConnectedStatus (read_prop data (js "value")))]) w.
Proof.
  intros H. route H.
  destruct (nullish _); [reflexivity|]. cbn.
  destruct (truthy _); reflexivity.
Qed.

Lemma route_PING_STATE d w :
  member (messageToJson d) (js "type") = Normal (VString socketReceiveMsgTypes.PING_STATE) ->
  let data := read_prop (messageToJson d) (js "data") in
  handleSocketOnMessage d w =
  if nullish data then thrown TypeError [] w
  else returned tt
         [EDispatch (setBotConnectedStatus
                       (coalesce (read_prop data (js "is_bot_connected")) (VBool false)))] w.
Proof.
  intros H. route H. destruct (nullish _); reflexivity.
Qed.

Lemma route_USER_INPUT d w :
  member (messageToJson d) (js "type") = Normal (VString socketReceiveMsgTypes.USER_INPUT) ->
  let data := read_prop (messageToJson d) (js "data") in
  handleSocketOnMessage d w =
  if truthy (opt_member data (js "text"))
  then if toString_throws (read_prop data (js "text"))
       then thrown TypeError [] w
       else returned tt
              [ESnackbar (UserSaid (read_prop data (js "text"))) SnackbarType.INFO] w
  else returned tt
         (if truthy (opt_member data (js "audio"))
          then [ESnackbar (Message (str "User sent audio (forwarded to control panel)"))
                  SnackbarType.INFO]
          else []) w.
Proof.
  intros H. route H. unfold opt_member, user_said.
  destruct (nullish _); [reflexivity|].
  destruct (truthy (read_prop _ (js "text"))).
  - cbn. destruct (toString_throws _); reflexivity.
  - destruct (truthy _); reflexivity.
Qed.

Lemma route_SYSTEM_CONFIG d w :
  member (messageToJson d) (js "type") = Normal (VString socketReceiveMsgTypes.SYSTEM_CONFIG) ->
  let data := read_prop (messageToJson d) (js "data") in
  handleSocketOnMessage d w =
  match member data (js "config") ≫= parseSocketConfig with
  | Normal parsed => returned tt [EDispatch (setConfig parsed)] w
  | Abrupt e => thrown e [] w
  end.
Proof.
  intros H. route H. unfold member.
  destruct (nullish _); [reflexivity|]. cbn.
  destruct (parseSocketConfig _); reflexivity.
Qed.

Lemma route_default d w t :
  member (messageToJson d) (js "type") = Normal (VString t) ->
  t ∉ socketReceiveMsgTypes.all ->
  handleSocketOnMessage d w = returned tt [EDispatch doNothing] w.
Proof.
  intros H Hn.
  unfold handleSocketOnMessage, member in *.
  destruct (nullish (messageToJson _)); [discriminate H|].
  injection H as H. unfold_M. rewrite H.
  unfold socketReceiveMsgTypes.all in Hn.
  rewrite !strict_eq_string_ne; [reflexivity|..]; intros ->; apply Hn; set_solver.
Qed.

(** Every message either asks for a new communication or leaves the world
    as it is and emits passive events only. *)
Lemma handleSocketOnMessage_cases d w :
  (message_type d = VString socketReceiveMsgTypes.INVALID_COMMUNICATION_ID
   /\ handleSocketOnMessage d w =
      returned tt
        (EStorage (RemoveItem LS_COMMUNICATION_ID_KEY)
         :: EThunk Thunk.loadOrCreateCommunication :: connect_events None)
        (set_localStorage (delete LS_COMMUNICATION_ID_KEY) w))
  \/ (message_type d <> VString socketReceiveMsgTypes.INVALID_COMMUNICATION_ID
      /\ final (handleSocketOnMessage d w) = w
      /\ forallb passive (emitted (handleSocketOnMessage d w)) = true).
Proof.
  destruct (strict_eq_string (message_type d)
              socketReceiveMsgTypes.INVALID_COMMUNICATION_ID) eqn:Ht.
  - left. apply strict_eq_string_true in Ht. split; [exact Ht|].
    apply route_INVALID_COMMUNICATION_ID.
    unfold message_type, opt_member, member in *.
    destruct (nullish _); [discriminate Ht|]. congruence.
  - right. split.
    { intros E. rewrite E in Ht. vm_compute in Ht. discriminate. }
    unfold message_type, opt_member in Ht.
    unfold handleSocketOnMessage, member.
    destruct (nullish (messageToJson d)); [split; reflexivity|].
    unfold_M. rewrite Ht. cbv beta iota.
    unfold parseSocketConfig, member, user_said.
    repeat case_match; unfold_M; split; reflexivity.
Qed.

(** *** One input *)

Lemma send_states_app a b : send_states (a ++ b) = send_states a ++ send_states b.
Proof. apply omap_app. Qed.

Lemma storage_keys_app a b : storage_keys (a ++ b) = storage_keys a ++ storage_keys b.
Proof. apply omap_app. Qed.

Lemma status_sets_app a b : status_sets (a ++ b) = status_sets a ++ status_sets b.
Proof. apply omap_app. Qed.

(** Split the projections of a trace along [++]. *)
Ltac trace_simpl :=
  rewrite ?send_states_app, ?storage_keys_app, ?status_sets_app, ?List.filter_app.

Lemma passive_silent evs :
  forallb passive evs = true ->
  send_states evs = [] /\ storage_keys evs = []
  /\ List.filter is_reconnect evs = [] /\ status_sets evs = [].
Proof.
  unfold send_states, storage_keys, status_sets.
  induction evs as [|e evs IH]; cbn; [auto|].
  intros H. apply andb_prop in H as [He H]. specialize (IH H).
  destruct e as [[]| | | | | | |]; try discriminate He; exact IH.
Qed.

Lemma sends_silent w payload :
  storage_keys (sends w payload) = []
  /\ List.filter is_reconnect (sends w payload) = []
  /\ status_sets (sends w payload) = [].
Proof.
  unfold sends. destruct (socket w) as [s|]; [|auto].
  destruct (readyState s); auto.
Qed.

Lemma step_Socket_message d w :
  step (Socket_message d) w =
  {| completed := completed (handleSocketOnMessage d w);
     final := final (handleSocketOnMessage d w);
     emitted := [EThunk Thunk.handleSocketOnMessage] ++ emitted (handleSocketOnMessage d w) |}.
Proof. reflexivity. Qed.

Lemma step_Ui_loadOrCreateCommunication w :
  let stored := localStorage w !! LS_COMMUNICATION_ID_KEY in
  step Ui_loadOrCreateCommunication w =
  returned tt (EThunk Thunk.loadOrCreateCommunication :: connect_events stored)
    (connect_world stored w).
Proof.
  cbn [step]. unfold_M. rewrite loadOrCreateCommunication_eq. reflexivity.
Qed.

Lemma step_Ui_sendTextToLLM text w :
  final (step (Ui_sendTextToLLM text) w) = w
  /\ emitted (step (Ui_sendTextToLLM text) w) =
     [EThunk Thunk.sendTextToLLM]
     ++ (if forallb is_whitespace text then []
         else sends w (text_payload text))
     ++ [ESnackbar
           (Message (str (if forallb is_whitespace text
                          then "Please provide text to send to the AI"
                          else "Sent text to AI")))
           (if forallb is_whitespace text then SnackbarType.ERROR else SnackbarType.INFO)].
Proof.
  cbn [step]. unfold_M. rewrite sendTextToLLM_eq.
  destruct (forallb _ _); cbn; rewrite ?app_nil_r; split; reflexivity.
Qed.

Lemma step_Ui_socketUpdateConfig config w :
  step (Ui_socketUpdateConfig config) w =
  returned tt (sends w (config_payload config) ++ [EDispatch doNothing]) w.
Proof.
  cbn [step]. unfold socketUpdateConfig. unfold_M.
  rewrite handleSocketMessageSend_eq. cbn. rewrite app_nil_r. reflexivity.
Qed.

Lemma step_Timer_fires i w :
  step (Timer_fires i) w =
  returned tt
    (match intervals w !! i with Some _ => sends w ping_payload | None => [] end) w.
Proof.
  cbn [step]. unfold_M.
  destruct (intervals w !! i) as [[[] ?]|]; [|reflexivity].
  cbn. rewrite handleSocketMessageSend_eq. reflexivity.
Qed.

(** The sends of one input happen on an open socket. *)
Lemma step_sends i w :
  Forall (fun st => st = ReadyState.OPEN) (send_states (emitted (step i w))).
Proof.
  destruct i.
  all: try (cbn; unfold_M; repeat constructor; fail).
  - rewrite step_Ui_loadOrCreateCommunication. cbn.
    destruct (localStorage w !! _) as [[|??]|]; cbn; constructor.
  - rewrite step_Ui_socketUpdateConfig. cbn. trace_simpl.
    rewrite app_nil_r. apply sends_open.
  - destruct (step_Ui_sendTextToLLM text w) as [_ ->]. trace_simpl.
    destruct (forallb _ _); [constructor|].
    cbn [app]. rewrite app_nil_r. apply sends_open.
  - rewrite step_Socket_message. cbn [emitted]. trace_simpl.
    destruct (handleSocketOnMessage_cases event_data w) as [[_ ->]|(_ & _ & H)].
    + cbn. constructor.
    + apply passive_silent in H as [-> _]. constructor.
  - rewrite step_Timer_fires. cbn.
    destruct (intervals w !! i); [apply sends_open|constructor].
Qed.

(** One input reads, writes and removes the key of the communication id
    only, and leaves the other keys as they are. *)
Lemma step_storage i w :
  Forall (fun k => k = LS_COMMUNICATION_ID_KEY) (storage_keys (emitted (step i w)))
  /\ forall k, k <> LS_COMMUNICATION_ID_KEY ->
       localStorage (final (step i w)) !! k = localStorage w !! k.
Proof.
  destruct i.
  all: try (cbn; unfold_M; split; [repeat constructor | reflexivity]; fail).
  - rewrite step_Ui_loadOrCreateCommunication. cbn.
    destruct (localStorage w !! _) as [[|??]|]; cbn;
      (split; [repeat constructor | reflexivity]).
  - rewrite step_Ui_socketUpdateConfig. cbn. trace_simpl.
    destruct (sends_silent w (config_payload config)) as [-> _].
    split; [constructor|reflexivity].
  - destruct (step_Ui_sendTextToLLM text w) as [-> ->]. trace_simpl.
    split; [|reflexivity].
    destruct (forallb _ _); [constructor|].
    destruct (sends_silent w (text_payload text)) as [-> _]. constructor.
  - cbn. split; [repeat constructor|].
    intros k Hk. apply lookup_insert_ne. congruence.
  - rewrite step_Socket_message. cbn [emitted final]. trace_simpl.
    destruct (handleSocketOnMessage_cases event_data w) as [[_ ->]|(_ & -> & H)].
    + cbn. split; [repeat constructor|].
      intros k Hk. apply lookup_delete_ne. congruence.
    + apply passive_silent in H as (_ & -> & _). split; [constructor|reflexivity].
  - rewrite step_Timer_fires. cbn. split; [|reflexivity].
    destruct (intervals w !! i); [|constructor].
    destruct (sends_silent w ping_payload) as [-> _]. constructor.
  - cbn. split; [repeat constructor|].
    intros k Hk. apply lookup_insert_ne. congruence.
Qed.

(** Only the open handler adds a timer, and nothing removes one. *)
Lemma step_intervals i w :
  intervals (final (step i w)) =
  intervals w ++ (if is_open i then [heartbeat] else []).
Proof.
  destruct i.
  all: try (cbn; unfold_M; cbn; rewrite ?app_nil_r; reflexivity).
  - rewrite step_Ui_loadOrCreateCommunication.
    cbn. rewrite app_nil_r. destruct (localStorage w !! _) as [[|??]|]; reflexivity.
  - rewrite step_Ui_socketUpdateConfig. cbn. rewrite app_nil_r. reflexivity.
  - destruct (step_Ui_sendTextToLLM text w) as [-> _]. cbn. rewrite app_nil_r. reflexivity.
  - rewrite step_Socket_message. cbn. rewrite app_nil_r.
    destruct (handleSocketOnMessage_cases event_data w) as [[_ ->]|(_ & -> & _)]; reflexivity.
  - rewrite step_Timer_fires. cbn. rewrite app_nil_r. reflexivity.
Qed.

(** One input dispatches [loadOrCreateCommunication] once when it asks for
    a connection, and not at all otherwise. *)
Lemma step_reconnects i w :
  List.filter is_reconnect (emitted (step i w)) =
  if asks_connection i then [EThunk Thunk.loadOrCreateCommunication] else [].
Proof.
  destruct i.
  all: try (cbn; unfold_M; reflexivity).
  - rewrite step_Ui_loadOrCreateCommunication.
    cbn. destruct (localStorage w !! _) as [[|??]|]; reflexivity.
  - rewrite step_Ui_socketUpdateConfig. cbn. trace_simpl.
    destruct (sends_silent w (config_payload config)) as (_ & -> & _). reflexivity.
  - destruct (step_Ui_sendTextToLLM text w) as [_ ->]. trace_simpl.
    destruct (forallb _ _); [reflexivity|].
    destruct (sends_silent w (text_payload text)) as (_ & -> & _). reflexivity.
  - rewrite step_Socket_message. cbn [emitted asks_connection]. trace_simpl.
    destruct (handleSocketOnMessage_cases event_data w) as [[Ht ->]|(Ht & _ & H)].
    + rewrite Ht. reflexivity.
    + apply passive_silent in H as (_ & _ & -> & _).
      destruct (strict_eq_string _ _) eqn:E; [|reflexivity].
      apply strict_eq_string_true in E. contradiction.
  - rewrite step_Timer_fires. cbn.
    destruct (intervals w !! i); [|reflexivity].
    destruct (sends_silent w ping_payload) as (_ & -> & _). reflexivity.
Qed.

(** The statuses that one input assigns. *)
Lemma step_status i w :
  status_sets (emitted (step i w)) = status_of_input i.
Proof.
  destruct i.
  all: try (cbn; unfold_M; reflexivity).
  - rewrite step_Ui_loadOrCreateCommunication.
    cbn. destruct (localStorage w !! _) as [[|??]|]; reflexivity.
  - rewrite step_Ui_socketUpdateConfig. cbn. trace_simpl.
    destruct (sends_silent w (config_payload config)) as (_ & _ & ->). reflexivity.
  - destruct (step_Ui_sendTextToLLM text w) as [_ ->]. trace_simpl.
    destruct (forallb _ _); [reflexivity|].
    destruct (sends_silent w (text_payload text)) as (_ & _ & ->). reflexivity.
  - rewrite step_Socket_message. cbn [emitted status_of_input asks_connection]. trace_simpl.
    destruct (handleSocketOnMessage_cases event_data w) as [[Ht ->]|(Ht & _ & H)].
    + rewrite Ht. reflexivity.
    + apply passive_silent in H as (_ & _ & _ & ->).
      destruct (strict_eq_string _ _) eqn:E; [|reflexivity].
      apply strict_eq_string_true in E. contradiction.
  - rewrite step_Timer_fires. cbn.
    destruct (intervals w !! i); [|reflexivity].
    destruct (sends_silent w ping_payload) as (_ & _ & ->). reflexivity.
Qed.

(** *** Runs *)

Lemma run_cons i rest w :
  run (i :: rest) w =
  (fst (run rest (final (step i w))), emitted (step i w) ++ snd (run rest (final (step i w)))).
Proof. cbn [run]. destruct (run rest _). reflexivity. Qed.

Lemma run_sends inputs w :
  Forall (fun st => st = ReadyState.OPEN) (send_states (snd (run inputs w))).
Proof.
  revert w. induction inputs as [|i rest IH]; intros w.
  - constructor.
  - rewrite run_cons. cbn [snd]. rewrite send_states_app.
    apply Forall_app. split; [apply step_sends | apply IH].
Qed.

Lemma run_storage_keys inputs w :
  Forall (fun k => k = LS_COMMUNICATION_ID_KEY) (storage_keys (snd (run inputs w))).
Proof.
  revert w. induction inputs as [|i rest IH]; intros w.
  - constructor.
  - rewrite run_cons. cbn [snd]. rewrite storage_keys_app.
    apply Forall_app. split; [apply step_storage | apply IH].
Qed.

Lemma run_storage_frame inputs w k :
  k <> LS_COMMUNICATION_ID_KEY ->
  localStorage (fst (run inputs w)) !! k = localStorage w !! k.
Proof.
  intros Hk. revert w. induction inputs as [|i rest IH]; intros w.
  - reflexivity.
  - rewrite run_cons. cbn [fst]. rewrite IH. apply step_storage. exact Hk.
Qed.

Lemma run_intervals inputs w :
  intervals (fst (run inputs w)) =
  intervals w ++ repeat heartbeat (length (List.filter is_open inputs)).
Proof.
  revert w. induction inputs as [|i rest IH]; intros w.
  - cbn. rewrite app_nil_r. reflexivity.
  - rewrite run_cons. cbn [fst]. rewrite IH, step_intervals.
    cbn [List.filter]. destruct (is_open i); cbn.
    + rewrite <- app_assoc. reflexivity.
    + rewrite app_nil_r. reflexivity.
Qed.

Lemma run_reconnects inputs w :
  length (List.filter is_reconnect (snd (run inputs w))) =
  length (List.filter asks_connection inputs).
Proof.
  revert w. induction inputs as [|i rest IH]; intros w.
  - reflexivity.
  - rewrite run_cons. cbn [snd]. rewrite List.filter_app, length_app, IH.
    rewrite step_reconnects. cbn [List.filter].
    destruct (asks_connection i); reflexivity.
Qed.

Lemma run_status inputs w :
  status_sets (snd (run inputs w)) = flat_map status_of_input inputs.
Proof.
  revert w. induction inputs as [|i rest IH]; intros w.
  - reflexivity.
  - rewrite run_cons. cbn [snd]. rewrite status_sets_app, IH, step_status.
    reflexivity.
Qed.

(** *** The claims *)

Lemma receive_types_NoDup : NoDup socketReceiveMsgTypes.all.
Proof.
  apply (bool_decide_unpack _). vm_compute. exact I.
Qed.

(** C1. The router knows nine message types. A message whose [type] is one
    of them gets the actions of that case: the key is removed and the
    communication loaded again (INVALID_COMMUNICATION_ID), [data.message]
    is shown as an error (UI_ERROR, CLOSE_CONNECTION,
    NEW_CONTROL_PANEL_DETECTED, and ERROR when it has a message), the bot
    status is stored (IS_BOT_CONNECTED, PING_STATE), the parsed
    configuration is stored (SYSTEM_CONFIG), the user's input is announced
    (USER_INPUT). The cases that read a property of [data], other than
    USER_INPUT, throw when [data] is [null] or [undefined]; USER_INPUT
    throws, before it announces anything, when [data.text] is truthy and
    its ToString throws. A message whose [type] is any other string
    dispatches [doNothing] and changes nothing else. *)
Theorem handleSocketOnMessage_routes (event_data t : jsstring) (w : world) :
  member (messageToJson event_data) (js "type") = Normal (VString t) ->
  let data := read_prop (messageToJson event_data) (js "data") in
  let handled := handleSocketOnMessage event_data w in
  (length socketReceiveMsgTypes.all = 9%nat /\ NoDup socketReceiveMsgTypes.all)
  /\ (t = socketReceiveMsgTypes.UI_ERROR ->
      handled = snackbar_of data SnackbarType.ERROR w)
  /\ (t = socketReceiveMsgTypes.CLOSE_CONNECTION ->
      handled = snackbar_of data SnackbarType.ERROR w)
  /\ (t = socketReceiveMsgTypes.INVALID_COMMUNICATION_ID ->
      handled =
      returned tt
        (EStorage (RemoveItem LS_COMMUNICATION_ID_KEY)
         :: EThunk Thunk.loadOrCreateCommunication :: connect_events None)
        (set_localStorage (delete LS_COMMUNICATION_ID_KEY) w))
  /\ (t = socketReceiveMsgTypes.ERROR ->
      handled =
      if nullish data then thrown TypeError [] w
      else if truthy (read_prop data (js "message"))
           then snackbar_of data SnackbarType.ERROR w
           else returned tt [] w)
  /\ (t = socketReceiveMsgTypes.IS_BOT_CONNECTED ->
      handled =
      if nullish data then thrown TypeError [] w
      else returned tt
             ((if truthy (read_prop data (js "message"))
               then [ESnackbar (Message (read_prop data (js "message")))
                       SnackbarType.INFO]
               else [])
              ++ [EDispatch (setBotConnectedStatus (read_prop data (js "value")))]) w)
  /\ (t = socketReceiveMsgTypes.NEW_CONTROL_PANEL_DETECTED ->
      handled = snackbar_of data SnackbarType.ERROR w)
  /\ (t = socketReceiveMsgTypes.SYSTEM_CONFIG ->
      handled =
      match member data (js "config") ≫= parseSocketConfig with
      | Normal parsed => returned tt [EDispatch (setConfig parsed)] w
      | Abrupt e => thrown e [] w
      end)
  /\ (t = socketReceiveMsgTypes.PING_STATE ->
      handled =
      if nullish data then thrown TypeError [] w
      else returned tt
             [EDispatch
                (setBotConnectedStatus
                   (coalesce (read_prop data (js "is_bot_connected")) (VBool false)))] w)
  /\ (t = socketReceiveMsgTypes.USER_INPUT ->
      handled =
      if truthy (opt_member data (js "text"))
      then if toString_throws (read_prop data (js "text"))
           then thrown TypeError [] w
           else returned tt
                  [ESnackbar (UserSaid (read_prop data (js "text")))
                     SnackbarType.INFO] w
      else returned tt
             (if truthy (opt_member data (js "audio"))
              then [ESnackbar
                      (Message (str "User sent audio (forwarded to control panel)"))
                      SnackbarType.INFO]
              else []) w)
  /\ (t ∉ socketReceiveMsgTypes.all ->
      handled = returned tt [EDispatch doNothing] w).
Proof.
  intros H data handled. subst data handled.
  split; [split; [reflexivity | apply receive_types_NoDup]|].
  repeat split; intros Ht; try subst t.
  - apply route_UI_ERROR, H.
  - apply route_CLOSE_CONNECTION, H.
  - apply route_INVALID_COMMUNICATION_ID, H.
  - apply route_ERROR, H.
  - apply route_IS_BOT_CONNECTED, H.
  - apply route_NEW_CONTROL_PANEL_DETECTED, H.
  - apply route_SYSTEM_CONFIG, H.
  - apply route_PING_STATE, H.
  - apply route_USER_INPUT, H.
  - eapply route_default; eassumption.
Qed.

Lemma handleSocketOnMessage_routes_witness :
  member (messageToJson (jq "{'type':'BOT_RENAMED','data':{'message':'hi'}}")) (js "type")
  = Normal (VString (js "BOT_RENAMED"))
  /\ handleSocketOnMessage (jq "{'type':'BOT_RENAMED','data':{'message':'hi'}}") open_world
     = returned tt [EDispatch doNothing] open_world.
Proof.
  split; [reflexivity|].
  apply (handleSocketOnMessage_routes _ (js "BOT_RENAMED") open_world); [reflexivity|].
  rewrite list_elem_of_In. vm_compute. intuition discriminate.
Defined.

Lemma message_type_member d t :
  message_type d = VString t -> member (messageToJson d) (js "type") = Normal (VString t).
Proof.
  unfold message_type, opt_member, member.
  destruct (nullish _); [discriminate|]. congruence.
Qed.

Lemma passive_not_reconnect evs :
  forallb passive evs = true -> ~ In (EThunk Thunk.loadOrCreateCommunication) evs.
Proof.
  intros H Hin. rewrite forallb_forall in H. apply H in Hin. discriminate Hin.
Qed.

(** C2. The router dispatches [loadOrCreateCommunication] exactly for the
    messages of type INVALID_COMMUNICATION_ID, after it removed the stored
    id; the error and close handlers only set the status; a failed creation
    is reported and not retried; and over any run there are as many
    dispatches of [loadOrCreateCommunication] as inputs that ask for one
    (the user interface, or a message of that type). *)
Theorem reconnection_is_one_shot :
  (forall event_data w,
      In (EThunk Thunk.loadOrCreateCommunication)
        (emitted (handleSocketOnMessage event_data w))
      <-> message_type event_data
          = VString socketReceiveMsgTypes.INVALID_COMMUNICATION_ID)
  /\ (forall event_data w,
         message_type event_data
         = VString socketReceiveMsgTypes.INVALID_COMMUNICATION_ID ->
         handleSocketOnMessage event_data w =
         returned tt
           [EStorage (RemoveItem LS_COMMUNICATION_ID_KEY);
            EThunk Thunk.loadOrCreateCommunication;
            EDispatch (setLoading true);
            EDispatch (setConnectionStatus ConnectionStatus.CONNECTING);
            EStorage (GetItem LS_COMMUNICATION_ID_KEY);
            EApi createCommunication]
           (set_localStorage (delete LS_COMMUNICATION_ID_KEY) w))
  /\ (forall w,
         socket_onError w =
         returned tt [EDispatch (setConnectionStatus ConnectionStatus.NOT_CONNECTED)] w
         /\ socket_onClose w =
            returned tt [EDispatch (setConnectionStatus ConnectionStatus.NOT_CONNECTED)] w)
  /\ (forall error w,
         exists message,
           createCommunication_onFailure error w =
           returned tt
             [EThunk Thunk.loadOrCreateCommunicationFailure;
              ESnackbar message SnackbarType.ERROR;
              EDispatch (setLoading false);
              EDispatch (setConnectionStatus ConnectionStatus.NOT_CONNECTED)] w)
  /\ (forall inputs w,
         length (List.filter is_reconnect (snd (run inputs w)))
         = length (List.filter asks_connection inputs)).
Proof.
  repeat split.
  - intros Hin.
    destruct (handleSocketOnMessage_cases event_data w) as [[Ht _]|(_ & _ & H)];
      [exact Ht|].
    exfalso. eapply passive_not_reconnect; eassumption.
  - intros Ht.
    rewrite (route_INVALID_COMMUNICATION_ID _ _ (message_type_member _ _ Ht)).
    cbn. auto.
  - intros event_data w Ht.
    apply route_INVALID_COMMUNICATION_ID, message_type_member, Ht.
  - intros error w. eexists. reflexivity.
  - apply run_reconnects.
Qed.

Lemma reconnection_is_one_shot_witness :
  message_type (jq "{'type':'INVALID_COMMUNICATION_ID','data':{}}")
  = VString socketReceiveMsgTypes.INVALID_COMMUNICATION_ID
  /\ localStorage
       (final (handleSocketOnMessage (jq "{'type':'INVALID_COMMUNICATION_ID','data':{}}")
                (set_localStorage (insert LS_COMMUNICATION_ID_KEY (js "c0ffee"))
                   initial_world)))
     !! LS_COMMUNICATION_ID_KEY = None.
Proof.
  split; [reflexivity|].
  destruct reconnection_is_one_shot as (_ & H & _).
  rewrite H; [|reflexivity]. cbn. apply lookup_delete_eq.
Defined.

(** C3 fails as stated: a SYSTEM_CONFIG message without [config] throws in
    [parseSocketConfig], and no configuration is stored. *)
Lemma SYSTEM_CONFIG_without_config_throws :
  let event_data := jq "{'type':'SYSTEM_CONFIG','data':{}}" in
  message_type event_data = VString socketReceiveMsgTypes.SYSTEM_CONFIG
  /\ (member (read_prop (messageToJson event_data) (js "data")) (js "config")
        ≫= parseSocketConfig) = Abrupt TypeError
  /\ handleSocketOnMessage event_data initial_world = thrown TypeError [] initial_world
  /\ forall old,
       config_after old (emitted (handleSocketOnMessage event_data initial_world)) = old.
Proof. repeat split. Qed.

Lemma parseSocketConfig_eq config :
  nullish config = false ->
  parseSocketConfig config =
  Normal {| skin := read_prop config (js "skin");
            audioEnabled := read_prop config (js "audio_enabled");
            textEnabled := read_prop config (js "text_enabled");
            llmModel := read_prop config (js "llm_model");
            voiceLanguageCode := read_prop config (js "voice_language_code");
            voiceGender := read_prop config (js "voice_gender");
            proactiveModeEnabled := read_prop config (js "proactive_mode_enabled");
            subtitlesEnabled :=
              coalesce (read_prop config (js "subtitles_enabled")) (VBool true);
            customPromptSuffix := VUndefined |}.
Proof.
  intros H. unfold parseSocketConfig, member. rewrite H. reflexivity.
Qed.

Lemma config_after_setConfig old earlier parsed :
  config_after old (earlier ++ [EDispatch (setConfig parsed)]) = parsed.
Proof. unfold config_after. rewrite fold_left_app. reflexivity. Qed.

(** C3, amended. For a SYSTEM_CONFIG message whose [data] and [data.config]
    are not [null] or [undefined], the router dispatches [setConfig] of
    [parseSocketConfig(data.config)] and nothing else, and the
    configuration is then that value, whatever it was before and whatever
    was dispatched earlier. *)
Theorem SYSTEM_CONFIG_last_write_wins (event_data : jsstring) (w : world) :
  message_type event_data = VString socketReceiveMsgTypes.SYSTEM_CONFIG ->
  let data := read_prop (messageToJson event_data) (js "data") in
  let config := read_prop data (js "config") in
  nullish data = false ->
  nullish config = false ->
  exists parsed,
    parseSocketConfig config = Normal parsed
    /\ handleSocketOnMessage event_data w
       = returned tt [EDispatch (setConfig parsed)] w
    /\ forall old earlier,
         config_after old (earlier ++ emitted (handleSocketOnMessage event_data w))
         = parsed.
Proof.
  intros Ht data config Hd Hc.
  pose proof (parseSocketConfig_eq config Hc) as Hp.
  match type of Hp with _ = Normal ?p => set (parsed := p) in * end.
  exists parsed. split; [exact Hp|].
  assert (handleSocketOnMessage event_data w
          = returned tt [EDispatch (setConfig parsed)] w) as E.
  { rewrite (route_SYSTEM_CONFIG _ _ (message_type_member _ _ Ht)).
    cbn zeta. fold data. unfold member. rewrite Hd. cbn. fold config.
    rewrite Hp. reflexivity. }
  split; [exact E|].
  intros old earlier. rewrite E. apply config_after_setConfig.
Qed.

Lemma SYSTEM_CONFIG_last_write_wins_witness :
  let event_data :=
    jq "{'type':'SYSTEM_CONFIG','data':{'config':{'skin':'fullbot','subtitles_enabled':false}}}" in
  exists parsed,
    skin parsed = str "fullbot" /\ subtitlesEnabled parsed = VBool false
    /\ emitted (handleSocketOnMessage event_data open_world) = [EDispatch (setConfig parsed)].
Proof.
  intros event_data.
  destruct (SYSTEM_CONFIG_last_write_wins event_data open_world)
    as (parsed & Hp & Hh & _); [reflexivity | reflexivity | reflexivity |].
  exists parsed. rewrite Hh.
  vm_compute in Hp. injection Hp as <-. repeat split.
Defined.

(** C4. There are three connection statuses. [loadOrCreateCommunication]
    sets CONNECTING first of all statuses and sets no other; the open
    handler sets CONNECTED; the error handler, the close handler and the
    failure of the creation set NOT_CONNECTED; and each input, and so each
    run, assigns exactly the statuses listed in [status_of_input]. *)
Theorem connection_status_assignments :
  (forall s : ConnectionStatus.t,
      s = ConnectionStatus.CONNECTED \/ s = ConnectionStatus.CONNECTING
      \/ s = ConnectionStatus.NOT_CONNECTED)
  /\ (forall w,
         exists rest,
           emitted (loadOrCreateCommunication w) =
           EDispatch (setLoading true)
           :: EDispatch (setConnectionStatus ConnectionStatus.CONNECTING) :: rest
           /\ status_sets rest = [])
  /\ (forall w,
         emitted (socket_onOpen w)
         = [EDispatch (setConnectionStatus ConnectionStatus.CONNECTED)])
  /\ (forall w,
         emitted (socket_onError w)
         = [EDispatch (setConnectionStatus ConnectionStatus.NOT_CONNECTED)])
  /\ (forall w,
         emitted (socket_onClose w)
         = [EDispatch (setConnectionStatus ConnectionStatus.NOT_CONNECTED)])
  /\ (forall error w,
         status_sets (emitted (loadOrCreateCommunicationFailure error w))
         = [ConnectionStatus.NOT_CONNECTED])
  /\ (forall i w, status_sets (emitted (step i w)) = status_of_input i)
  /\ (forall inputs w,
         status_sets (snd (run inputs w)) = flat_map status_of_input inputs).
Proof.
  split; [intros []; auto|].
  split.
  { intros w. rewrite loadOrCreateCommunication_eq. cbn zeta.
    eexists. split; [reflexivity|].
    destruct (localStorage w !! _) as [[|??]|]; reflexivity. }
  repeat split.
  - apply step_status.
  - apply run_status.
Qed.

(** C5 fails as stated: the text [null] parses, so [messageToJson] returns
    [null], which is no envelope, and the router throws on it. *)
Lemma messageToJson_null_is_no_envelope :
  JSON.parse (jq "null") = Some VNull
  /\ messageToJson (jq "null") = VNull
  /\ isSocketMessageResponse (messageToJson (jq "null")) = false
  /\ handleSocketOnMessage (jq "null") initial_world
     = thrown TypeError [] initial_world.
Proof. repeat split. Qed.

(** C5, amended. [messageToJson] returns a value for every string and never
    throws: the parsed value as it is when the string parses (an envelope
    only if that value is one), and otherwise the envelope of type UI_ERROR
    with the message "Error parsing json!", which the router shows as an
    error snackbar. *)
Theorem messageToJson_total (data : jsstring) :
  (forall v, JSON.parse data = Some v -> messageToJson data = v)
  /\ (JSON.parse data = None ->
      messageToJson data
      = VObject [(js "data", VObject [(js "message", str "Error parsing json!")]);
                 (js "type", VString (js "UI_ERROR"))]
      /\ isSocketMessageResponse (messageToJson data) = true
      /\ forall w,
           handleSocketOnMessage data w
           = returned tt
               [ESnackbar (Message (str "Error parsing json!")) SnackbarType.ERROR] w).
Proof.
  unfold messageToJson at 1 2. split.
  - intros v ->. reflexivity.
  - intros Hp. rewrite Hp. split; [reflexivity|].
    assert (messageToJson data
            = VObject [(js "data", VObject [(js "message", str "Error parsing json!")]);
                       (js "type", VString socketReceiveMsgTypes.UI_ERROR)]) as E
        by (unfold messageToJson; rewrite Hp; reflexivity).
    split; [rewrite E; reflexivity|].
    intros w. rewrite route_UI_ERROR; rewrite E; reflexivity.
Qed.

Lemma messageToJson_total_witness :
  JSON.parse (jq "{'type':'PING_STATE'") = None
  /\ emitted (handleSocketOnMessage (jq "{'type':'PING_STATE'") open_world)
     = [ESnackbar (Message (str "Error parsing json!")) SnackbarType.ERROR]
  /\ messageToJson (jq "{'type':'PING_STATE'}")
     = VObject [(js "type", VString socketReceiveMsgTypes.PING_STATE)].
Proof.
  destruct (messageToJson_total (jq "{'type':'PING_STATE'")) as [_ H].
  destruct (messageToJson_total (jq "{'type':'PING_STATE'}")) as [H' _].
  split; [reflexivity|]. split.
  - destruct H as (_ & _ & H); [reflexivity|]. rewrite H. reflexivity.
  - apply H'. reflexivity.
Defined.

(** C6. Every [localStorage] call of every run names the key
    "communicationId", and no run changes what is stored under another
    key. The key is written when a communication was created, read by
    [loadOrCreateCommunication], which with a stored id (a non-empty
    string; the empty string is falsy and counts as none) opens the socket
    for it without a REST call and otherwise calls [createCommunication],
    and removed on INVALID_COMMUNICATION_ID. *)
Theorem localStorage_single_key :
  LS_COMMUNICATION_ID_KEY = js "communicationId"
  /\ (forall inputs w,
         Forall (fun k => k = LS_COMMUNICATION_ID_KEY)
           (storage_keys (snd (run inputs w))))
  /\ (forall inputs w k,
         k <> LS_COMMUNICATION_ID_KEY ->
         localStorage (fst (run inputs w)) !! k = localStorage w !! k)
  /\ (forall data w,
         loadOrCreateCommunicationSuccess data w =
         returned tt
           [EStorage (SetItem LS_COMMUNICATION_ID_KEY (communication_id data));
            EDispatch (setCommunicationId (communication_id data));
            EDispatch (setLoading false);
            EThunk Thunk.initAndHandleWebsocket;
            EWebSocket (communication_id data)]
           (set_socket (Some {| ws_communicationId := communication_id data;
                                readyState := ReadyState.CONNECTING |})
              (set_localStorage
                 (insert LS_COMMUNICATION_ID_KEY (communication_id data)) w)))
  /\ (forall w,
         loadOrCreateCommunication w =
         returned tt
           ([EDispatch (setLoading true);
             EDispatch (setConnectionStatus ConnectionStatus.CONNECTING);
             EStorage (GetItem LS_COMMUNICATION_ID_KEY)]
            ++ match localStorage w !! LS_COMMUNICATION_ID_KEY with
               | Some (c :: id) =>
                   [EDispatch (setCommunicationId (c :: id));
                    EThunk Thunk.initAndHandleWebsocket;
                    EWebSocket (c :: id)]
               | Some [] | None => [EApi createCommunication]
               end)
           (connect_world (localStorage w !! LS_COMMUNICATION_ID_KEY) w))
  /\ (forall w,
         In (EApi createCommunication) (emitted (loadOrCreateCommunication w))
         <-> (localStorage w !! LS_COMMUNICATION_ID_KEY = None
              \/ localStorage w !! LS_COMMUNICATION_ID_KEY = Some []))
  /\ (forall event_data w,
         message_type event_data
         = VString socketReceiveMsgTypes.INVALID_COMMUNICATION_ID ->
         storage_keys (emitted (handleSocketOnMessage event_data w))
         = [LS_COMMUNICATION_ID_KEY; LS_COMMUNICATION_ID_KEY]
         /\ localStorage (final (handleSocketOnMessage event_data w))
            = delete LS_COMMUNICATION_ID_KEY (localStorage w)).
Proof.
  split; [reflexivity|].
  split; [apply run_storage_keys|].
  split; [apply run_storage_frame|].
  split; [apply loadOrCreateCommunicationSuccess_eq|].
  split; [apply loadOrCreateCommunication_eq|].
  split.
  { intros w. rewrite loadOrCreateCommunication_eq. cbn zeta.
    destruct (localStorage w !! LS_COMMUNICATION_ID_KEY) as [[|c id]|]; cbn;
      intuition congruence. }
  intros event_data w Ht.
  rewrite (route_INVALID_COMMUNICATION_ID _ _ (message_type_member _ _ Ht)).
  split; reflexivity.
Qed.

Lemma localStorage_single_key_witness :
  let w := set_localStorage (insert (js "theme") (js "dark")) initial_world in
  let inputs :=
    [Ui_loadOrCreateCommunication;
     Api_createCommunication_onSuccess {| communication_id := js "c0ffee" |};
     Socket_message (jq "{'type':'INVALID_COMMUNICATION_ID'}")] in
  js "theme" <> LS_COMMUNICATION_ID_KEY
  /\ localStorage (fst (run inputs w)) !! js "theme" = Some (js "dark").
Proof.
  intros w inputs.
  assert (js "theme" <> LS_COMMUNICATION_ID_KEY) as Hne by (vm_compute; discriminate).
  split; [exact Hne|].
  destruct localStorage_single_key as (_ & _ & H & _).
  rewrite (H inputs w _ Hne). apply lookup_insert_eq.
Defined.

(** C7. The open handler registers one timer, of 5000 milliseconds, whose
    callback attempts to send [{type: PING}], and returns the CONNECTED
    action. No other input adds a timer and none removes one: after a run
    the timers are those of before, followed by one heartbeat per open
    event. *)
Theorem heartbeat_is_the_only_timer :
  (forall w,
      handleConnectionOnOpen w =
      returned (setConnectionStatus ConnectionStatus.CONNECTED) []
        (set_intervals (fun l => l ++ [heartbeat]) w))
  /\ heartbeat = {| iv_callback := SendPing; iv_delay := 5000 |}
  /\ (forall w,
         runCallback SendPing w =
         returned tt (sends w (VObject [(js "type", VString (js "PING"))])) w)
  /\ (forall i w,
         intervals (final (step i w)) =
         intervals w ++ (if is_open i then [heartbeat] else []))
  /\ (forall inputs w,
         intervals (fst (run inputs w)) =
         intervals w ++ repeat heartbeat (length (List.filter is_open inputs))).
Proof.
  split; [reflexivity|].
  split; [reflexivity|].
  split; [intros w; apply handleSocketMessageSend_eq|].
  split; [apply step_intervals | apply run_intervals].
Qed.

Lemma socketUpdateConfig_eq config w :
  socketUpdateConfig config w =
  returned doNothing (sends w (config_payload config)) w.
Proof.
  unfold socketUpdateConfig. unfold_M. rewrite handleSocketMessageSend_eq.
  cbn. rewrite app_nil_r. reflexivity.
Qed.

(** C8. [handleSocketMessageSend] hands the payload to the socket exactly
    when there is a socket and it is open, and otherwise returns without
    sending; it never throws. The three senders (configuration update,
    text, ping) send through it, and in every run every send happens on an
    open socket. *)
Theorem sends_only_on_open_socket :
  (forall data w,
      handleSocketMessageSend data w =
      returned tt
        (match socket w with
         | Some s =>
             match readyState s with
             | ReadyState.OPEN => [ESend ReadyState.OPEN data]
             | ReadyState.CONNECTING | ReadyState.CLOSING | ReadyState.CLOSED => []
             end
         | None => []
         end) w)
  /\ (forall config w,
         socketUpdateConfig config w =
         returned doNothing (sends w (config_payload config)) w)
  /\ (forall text w,
         emitted (sendTextToLLM text w) =
         (if forallb is_whitespace text then [] else sends w (text_payload text))
         ++ [ESnackbar
               (Message (str (if forallb is_whitespace text
                              then "Please provide text to send to the AI"
                              else "Sent text to AI")))
               (if forallb is_whitespace text
                then SnackbarType.ERROR else SnackbarType.INFO)])
  /\ (forall w, runCallback SendPing w = returned tt (sends w ping_payload) w)
  /\ (forall payload w,
         Forall (fun st => st = ReadyState.OPEN) (send_states (sends w payload)))
  /\ (forall inputs w,
         Forall (fun st => st = ReadyState.OPEN) (send_states (snd (run inputs w)))).
Proof.
  split; [apply handleSocketMessageSend_eq|].
  split; [apply socketUpdateConfig_eq|].
  split.
  { intros text w. rewrite sendTextToLLM_eq.
    destruct (forallb _ _); reflexivity. }
  split; [intros w; apply handleSocketMessageSend_eq|].
  split; [intros payload w; apply sends_open | apply run_sends].
Qed.

(** C9 fails as stated: a wire record whose [subtitles_enabled] is [null]
    has the field defined, and comes back with [true] in its place. *)
Lemma subtitles_null_does_not_round_trip :
  let r := VObject [(js "skin", str "simple"); (js "subtitles_enabled", VNull)] in
  JSON.parse (jq "{'skin':'simple','subtitles_enabled':null}") = Some r
  /\ is_undefined (read_prop r (js "subtitles_enabled")) = false
  /\ exists c,
       parseSocketConfig r = Normal c
       /\ read_prop (makeSocketConfig c) (js "subtitles_enabled") = VBool true
       /\ read_prop r (js "subtitles_enabled") = VNull.
Proof. repeat split. eexists. repeat split. Qed.

Lemma makeSocketConfig_fields c :
  read_prop (makeSocketConfig c) (js "skin") = skin c
  /\ read_prop (makeSocketConfig c) (js "audio_enabled") = audioEnabled c
  /\ read_prop (makeSocketConfig c) (js "text_enabled") = textEnabled c
  /\ read_prop (makeSocketConfig c) (js "llm_model") = llmModel c
  /\ read_prop (makeSocketConfig c) (js "voice_language_code") = voiceLanguageCode c
  /\ read_prop (makeSocketConfig c) (js "voice_gender") = voiceGender c
  /\ read_prop (makeSocketConfig c) (js "proactive_mode_enabled") = proactiveModeEnabled c
  /\ read_prop (makeSocketConfig c) (js "subtitles_enabled")
     = if is_undefined (subtitlesEnabled c) then VBool true else subtitlesEnabled c.
Proof.
  repeat split; try reflexivity.
  destruct c as [? ? ? ? ? ? ? sub ?]. destruct sub; reflexivity.
Qed.

(** C9, amended. On a wire record, [makeSocketConfig] after
    [parseSocketConfig] gives back the seven fields skin, audio_enabled,
    text_enabled, llm_model, voice_language_code, voice_gender and
    proactive_mode_enabled as they were, and subtitles_enabled as it was
    when it is neither absent nor [null]; when it is absent or [null] both
    translations have [true] for it, and [makeSocketConfig] has [true] for
    a client configuration whose [subtitlesEnabled] is [undefined]. *)
Theorem socket_config_round_trip (props : list (jsstring * value)) :
  let r := VObject props in
  exists c,
    parseSocketConfig r = Normal c
    /\ (forall k,
           In k [js "skin"; js "audio_enabled"; js "text_enabled"; js "llm_model";
                 js "voice_language_code"; js "voice_gender";
                 js "proactive_mode_enabled"] ->
           read_prop (makeSocketConfig c) k = read_prop r k)
    /\ (nullish (read_prop r (js "subtitles_enabled")) = false ->
        read_prop (makeSocketConfig c) (js "subtitles_enabled")
        = read_prop r (js "subtitles_enabled"))
    /\ (nullish (read_prop r (js "subtitles_enabled")) = true ->
        subtitlesEnabled c = VBool true
        /\ read_prop (makeSocketConfig c) (js "subtitles_enabled") = VBool true)
    /\ (forall c',
           subtitlesEnabled c' = VUndefined ->
           read_prop (makeSocketConfig c') (js "subtitles_enabled") = VBool true).
Proof.
  intros r.
  pose proof (parseSocketConfig_eq r eq_refl) as Hp.
  match type of Hp with _ = Normal ?p => set (c := p) in * end.
  exists c. split; [exact Hp|].
  destruct (makeSocketConfig_fields c) as (F1 & F2 & F3 & F4 & F5 & F6 & F7 & F8).
  split.
  { intros k Hk. cbn in Hk.
    destruct Hk as [<-|[<-|[<-|[<-|[<-|[<-|[<-|[]]]]]]]]; assumption. }
  rewrite F8. subst c. cbn [subtitlesEnabled]. unfold coalesce.
  clear. split; [|split].
  - intros H.
    destruct (read_prop r (js "subtitles_enabled")); try discriminate H; reflexivity.
  - intros ->. split; reflexivity.
  - intros c' Hc'. destruct (makeSocketConfig_fields c') as (_ & _ & _ & _ & _ & _ & _ & ->).
    rewrite Hc'. reflexivity.
Qed.

Lemma socket_config_round_trip_witness :
  let props := [(js "skin", str "faceonly"); (js "subtitles_enabled", VBool false)] in
  nullish (read_prop (VObject props) (js "subtitles_enabled")) = false
  /\ exists c,
       parseSocketConfig (VObject props) = Normal c
       /\ read_prop (makeSocketConfig c) (js "subtitles_enabled") = VBool false.
Proof.
  intros props. split; [reflexivity|].
  destruct (socket_config_round_trip props) as (c & Hp & _ & H & _).
  exists c. split; [exact Hp|]. rewrite H; reflexivity.
Defined.

(** C10. For a text that is empty or all whitespace, [sendTextToLLM] shows
    the error "Please provide text to send to the AI" and sends nothing;
    for any other text it attempts to send [{type: SEND_TEXT, data: {text}}]
    with the text as given, untrimmed, and shows the info "Sent text to
    AI". Blank is what [trim] empties. *)
Theorem sendTextToLLM_rejects_blank (text : jsstring) (w : world) :
  (trim text = [] <-> forallb is_whitespace text = true)
  /\ (forallb is_whitespace text = true ->
      sendTextToLLM text w =
      returned None
        [ESnackbar (Message (str "Please provide text to send to the AI"))
           SnackbarType.ERROR] w)
  /\ (forallb is_whitespace text = false ->
      sendTextToLLM text w =
      returned (Some doNothing)
        (sends w (VObject [(js "type", VString (js "SEND_TEXT"));
                           (js "data", VObject [(js "text", VString text)])])
         ++ [ESnackbar (Message (str "Sent text to AI")) SnackbarType.INFO]) w).
Proof.
  split; [apply trim_nil|].
  rewrite sendTextToLLM_eq.
  split; intros ->; reflexivity.
Qed.

Lemma sendTextToLLM_rejects_blank_witness :
  forallb is_whitespace (js "  ") = true
  /\ forallb is_whitespace (js " hello ") = false
  /\ emitted (sendTextToLLM (js "  ") open_world)
     = [ESnackbar (Message (str "Please provide text to send to the AI"))
          SnackbarType.ERROR]
  /\ emitted (sendTextToLLM (js " hello ") open_world)
     = [ESend ReadyState.OPEN (text_payload (js " hello "));
        ESnackbar (Message (str "Sent text to AI")) SnackbarType.INFO].
Proof.
  destruct (sendTextToLLM_rejects_blank (js "  ") open_world) as (_ & H1 & _).
  destruct (sendTextToLLM_rejects_blank (js " hello ") open_world) as (_ & _ & H2).
  split; [reflexivity|]. split; [reflexivity|].
  rewrite H1, H2 by reflexivity. split; reflexivity.
Defined.

(* ===================================================================== *)
(** ** Further properties of the code *)
(* ===================================================================== *)

(** *** What the decoder returns *)

Lemma word_value_shaped w v : JSON.word_value w = Some v -> json_shaped v = true.
Proof.
  unfold JSON.word_value.
  destruct (bool_decide (w = js "null")); [intros E; injection E as <-; reflexivity|].
  destruct (bool_decide (w = js "true")); [intros E; injection E as <-; reflexivity|].
  destruct (bool_decide (w = js "false")); [intros E; injection E as <-; reflexivity|].
  destruct (JSON.parse_number w); cbn; [intros E; injection E as <-; reflexivity | discriminate].
Qed.

Lemma complete_shaped v st p :
  json_shaped v = true -> forallb frame_shaped st = true ->
  JSON.complete v st = Some p -> pstate_shaped p = true.
Proof.
  intros Hv Hst. destruct st as [|[acc|acc|acc k] st]; cbn in *; intros H;
    try discriminate; injection H as <-; cbn; [exact Hv|..].
  all: apply andb_prop in Hst as [Hf Hst]; rewrite forallb_app, Hf, Hst; cbn;
    rewrite Hv; reflexivity.
Qed.

Lemma parse_step_shaped p t p' :
  pstate_shaped p = true -> JSON.parse_step p t = Some p' -> pstate_shaped p' = true.
Proof.
  intros Hp H.
  destruct p as [st b|st b|st k|st|v]; destruct t as [| | | | | |s|word];
    cbn in H; try discriminate H.
  all: repeat match type of H with
         | match ?x with _ => _ end = _ => destruct x eqn:?; try discriminate H
         end.
  all: try (match type of H with
            | context [JSON.word_value ?w] =>
                destruct (JSON.word_value w) as [v0|] eqn:Hw; [|cbn in H; discriminate H];
                cbn in H;
                eapply complete_shaped;
                [eapply word_value_shaped; exact Hw | exact Hp | exact H]
            end; fail).
  all: cbn in Hp; try (injection H as <-; cbn; cbn in Hp; exact Hp).
  all: try (apply andb_prop in Hp as [Hf Hst]).
  all: try (eapply complete_shaped; [ | | exact H];
            [first [reflexivity | exact Hf] | first [exact Hst | exact Hp]]; fail).
  all: try (eapply complete_shaped; [ | | exact H];
            [reflexivity | cbn; rewrite ?Hf, ?Hst; reflexivity]; fail).
Qed.

Lemma parse_tokens_shaped ts p v :
  pstate_shaped p = true -> JSON.parse_tokens p ts = Some v -> json_shaped v = true.
Proof.
  revert p. induction ts as [|t ts IH]; intros p Hp H; cbn in H.
  - destruct p; try discriminate H. injection H as <-. exact Hp.
  - destruct (JSON.parse_step p t) as [p'|] eqn:Hs; [|discriminate H].
    eapply IH; [eapply parse_step_shaped; eassumption | exact H].
Qed.

Lemma parse_shaped text v : JSON.parse text = Some v -> json_shaped v = true.
Proof.
  unfold JSON.parse. destruct (JSON.lex _ _ _) as [ts|]; [|discriminate].
  cbn. apply parse_tokens_shaped. reflexivity.
Qed.

Lemma messageToJson_shaped d : json_shaped (messageToJson d) = true.
Proof.
  unfold messageToJson. destruct (JSON.parse d) eqn:H; [|reflexivity].
  eapply parse_shaped, H.
Qed.

Lemma own_prop_shaped props k v :
  forallb (fun kv => json_shaped (snd kv)) props = true ->
  own_prop props k = Some v -> json_shaped v = true.
Proof.
  induction props as [|[k' v'] props IH]; cbn; [discriminate|].
  intros H. apply andb_prop in H as [Hv Hp].
  destruct (own_prop props k) eqn:Ho.
  - intros E. injection E as <-. apply IH; [exact Hp | reflexivity].
  - destruct (decide (k' = k)); [|discriminate]. intros E. injection E as <-. exact Hv.
Qed.

(** X2. What [messageToJson] returns holds no [undefined]: it is [null]
    or [undefined] only for a text that parses to [null], and a member
    that this module reads ([type], [data], [message], [config], [value],
    [is_bot_connected], [text], [audio] and the eight wire names of the
    configuration, none of them a property of a built-in prototype) reads
    [undefined] from a decoded object only when the object lacks it. *)
Theorem messageToJson_never_undefined (event_data : jsstring) :
  json_shaped (messageToJson event_data) = true
  /\ (nullish (messageToJson event_data) = true <-> JSON.parse event_data = Some VNull)
  /\ (forall props k,
         In k module_keys ->
         messageToJson event_data = VObject props ->
         (read_prop (VObject props) k = VUndefined <-> own_prop props k = None)).
Proof.
  pose proof (messageToJson_shaped event_data) as Hs.
  split; [exact Hs|]. split.
  - unfold messageToJson in *. destruct (JSON.parse event_data) as [v|] eqn:Hp.
    + split.
      * intros Hn. destruct v; try discriminate Hn; [discriminate Hs | reflexivity].
      * intros E. injection E as ->. reflexivity.
    + split; discriminate.
  - intros props k _ E. rewrite E in Hs. cbn in Hs. cbn.
    destruct (own_prop props k) as [v|] eqn:Ho; cbn; [|tauto].
    split; [|discriminate]. intros ->.
    apply (own_prop_shaped _ _ _ Hs) in Ho. discriminate Ho.
Qed.

Lemma messageToJson_never_undefined_witness :
  messageToJson (jq "{'type':'ERROR','data':null}")
  = VObject [(js "type", str "ERROR"); (js "data", VNull)]
  /\ read_prop (messageToJson (jq "{'type':'ERROR','data':null}")) (js "message")
     = VUndefined.
Proof.
  split; [reflexivity|].
  destruct (messageToJson_never_undefined (jq "{'type':'ERROR','data':null}"))
    as (_ & _ & H).
  rewrite (eq_refl : messageToJson (jq "{'type':'ERROR','data':null}")
                     = VObject [(js "type", str "ERROR"); (js "data", VNull)]).
  apply (H _ (js "message")); [right; right; left; reflexivity | reflexivity..].
Defined.

(** *** When the router throws *)

Lemma route_other d w :
  nullish (messageToJson d) = false ->
  Forall (fun c => strict_eq_string (read_prop (messageToJson d) (js "type")) c = false)
    socketReceiveMsgTypes.all ->
  handleSocketOnMessage d w = returned tt [EDispatch doNothing] w.
Proof.
  intros Hn H. unfold handleSocketOnMessage, member. rewrite Hn. unfold_M.
  unfold socketReceiveMsgTypes.all in H.
  repeat (apply Forall_cons in H as [? H]).
  repeat match goal with E : strict_eq_string _ _ = false |- _ => rewrite E; clear E end.
  reflexivity.
Qed.

Ltac case_type C :=
  match goal with
  | Hn : nullish ?m = false |- context [read_prop ?m (js "type")] =>
      let E := fresh "Ef" in
      destruct (strict_eq_string (read_prop m (js "type")) C) eqn:E;
      [ apply strict_eq_string_true in E;
        assert (member m (js "type") = Normal (VString C)) as Hm
          by (unfold member; rewrite E, Hn; reflexivity);
        rename E into Et
      | ]
  end.

Lemma handleSocketOnMessage_throws_iff d w :
  handleSocketOnMessage d w =
  if router_throws (messageToJson d) then thrown TypeError [] w
  else {| completed := Normal tt;
          final := final (handleSocketOnMessage d w);
          emitted := emitted (handleSocketOnMessage d w) |}.
Proof.
  unfold router_throws.
  destruct (nullish (messageToJson d)) eqn:Hn.
  { unfold handleSocketOnMessage, member. rewrite Hn. reflexivity. }
  cbn [orb].
  case_type socketReceiveMsgTypes.INVALID_COMMUNICATION_ID.
  { rewrite (route_INVALID_COMMUNICATION_ID _ _ Hm), Et. reflexivity. }
  case_type socketReceiveMsgTypes.UI_ERROR.
  { rewrite (route_UI_ERROR _ _ Hm), Et. unfold snackbar_of.
    destruct (nullish (read_prop _ (js "data"))); reflexivity. }
  case_type socketReceiveMsgTypes.ERROR.
  { rewrite (route_ERROR _ _ Hm), Et. cbn zeta. unfold snackbar_of.
    destruct (nullish (read_prop _ (js "data"))); [reflexivity|].
    destruct (truthy _); reflexivity. }
  case_type socketReceiveMsgTypes.SYSTEM_CONFIG.
  { rewrite (route_SYSTEM_CONFIG _ _ Hm), Et. cbn zeta. unfold member.
    destruct (nullish (read_prop _ (js "data"))); [reflexivity|]. cbn.
    unfold parseSocketConfig, member.
    destruct (nullish (read_prop _ (js "config"))); reflexivity. }
  case_type socketReceiveMsgTypes.CLOSE_CONNECTION.
  { rewrite (route_CLOSE_CONNECTION _ _ Hm), Et. unfold snackbar_of.
    destruct (nullish (read_prop _ (js "data"))); reflexivity. }
  case_type socketReceiveMsgTypes.IS_BOT_CONNECTED.
  { rewrite (route_IS_BOT_CONNECTED _ _ Hm), Et. cbn zeta.
    destruct (nullish (read_prop _ (js "data"))); reflexivity. }
  case_type socketReceiveMsgTypes.PING_STATE.
  { rewrite (route_PING_STATE _ _ Hm), Et. cbn zeta.
    destruct (nullish (read_prop _ (js "data"))); reflexivity. }
  case_type socketReceiveMsgTypes.USER_INPUT.
  { rewrite (route_USER_INPUT _ _ Hm), Et. cbn zeta.
    destruct (truthy (opt_member _ (js "text"))); [|reflexivity].
    destruct (toString_throws _); reflexivity. }
  case_type socketReceiveMsgTypes.NEW_CONTROL_PANEL_DETECTED.
  { rewrite (route_NEW_CONTROL_PANEL_DETECTED _ _ Hm), Et. unfold snackbar_of.
    destruct (nullish (read_prop _ (js "data"))); reflexivity. }
  rewrite route_other; [|exact Hn|].
  - unfold reads_data.
    repeat match goal with H : strict_eq_string _ _ = false |- _ => rewrite H; clear H end.
    reflexivity.
  - unfold socketReceiveMsgTypes.all. repeat constructor; assumption.
Qed.

(** X1. The router throws exactly on the decoded messages of
    [router_throws]: [null] itself; a message of a type whose case reads
    [data.message], [data.value], [data.is_bot_connected] or [data.config]
    when [data] is [null] or [undefined]; a SYSTEM_CONFIG message whose
    [data.config] is; a USER_INPUT message whose [data.text] is truthy and
    has no string, that is an object with a member [toString] of its own,
    or an array that holds such an object at any depth. What it throws is
    a TypeError, and it throws before it dispatched or stored anything. *)
Theorem handleSocketOnMessage_fails_before_any_effect (event_data : jsstring) (w : world) :
  (router_throws (messageToJson event_data) = true ->
   handleSocketOnMessage event_data w = thrown TypeError [] w)
  /\ (router_throws (messageToJson event_data) = false ->
      completed (handleSocketOnMessage event_data w) = Normal tt).
Proof.
  rewrite handleSocketOnMessage_throws_iff.
  split; intros ->; reflexivity.
Qed.

Lemma handleSocketOnMessage_fails_before_any_effect_witness :
  router_throws (messageToJson (jq "{'type':'PING_STATE'}")) = true
  /\ router_throws (messageToJson (jq "{'type':'USER_INPUT'}")) = false
  /\ router_throws
       (messageToJson (jq "{'type':'USER_INPUT','data':{'text':[{'toString':1}]}}")) = true
  /\ handleSocketOnMessage (jq "{'type':'PING_STATE'}") open_world
     = thrown TypeError [] open_world
  /\ completed (handleSocketOnMessage (jq "{'type':'USER_INPUT'}") open_world)
     = Normal tt
  /\ handleSocketOnMessage
       (jq "{'type':'USER_INPUT','data':{'text':[{'toString':1}]}}") open_world
     = thrown TypeError [] open_world.
Proof.
  split; [reflexivity|]. split; [reflexivity|]. split; [reflexivity|].
  split; [|split].
  - apply (handleSocketOnMessage_fails_before_any_effect _ open_world). reflexivity.
  - apply (handleSocketOnMessage_fails_before_any_effect _ open_world). reflexivity.
  - apply (handleSocketOnMessage_fails_before_any_effect _ open_world). reflexivity.
Defined.

(** *** What can throw *)

Lemma step_completed i w :
  completed (step i w) =
  match i with
  | Socket_message d => completed (handleSocketOnMessage d w)
  | Api_getControlPanelConfig_onSuccess_nullish
  | Api_createCommunication_onSuccess_nullish => Abrupt TypeError
  | _ => Normal tt
  end.
Proof.
  destruct i; try reflexivity.
  - rewrite step_Ui_loadOrCreateCommunication. reflexivity.
  - rewrite step_Ui_socketUpdateConfig. reflexivity.
  - cbn [step]. unfold_M. rewrite sendTextToLLM_eq.
    destruct (forallb _ _); reflexivity.
  - rewrite step_Timer_fires. reflexivity.
Qed.

(** X3. Of all that reaches the module, what makes its code throw is a
    socket message on which the router throws, and a success callback of a
    REST call that gets [null] or [undefined] for its response; what is
    thrown is a TypeError. The dispatches of the user interface, the
    success callbacks on a response of their declared type, the failure
    callback, the other socket events and the timers always return (the
    host calls themselves, [localStorage], [initializeWebSocket] and
    [window.open], are taken to succeed). A message that throws and a null
    list of models leave the world as it was; a null creation response
    has stored the string "undefined" as the communication id by the time
    it throws, and neither dispatches an id nor opens a socket. *)
Theorem inputs_that_throw (i : input) (w : world) :
  completed (step i w) = (if input_throws i then Abrupt TypeError else Normal tt)
  /\ (forall event_data,
         i = Socket_message event_data ->
         router_throws (messageToJson event_data) = true ->
         final (step i w) = w
         /\ emitted (step i w) = [EThunk Thunk.handleSocketOnMessage])
  /\ (i = Api_getControlPanelConfig_onSuccess_nullish ->
      final (step i w) = w /\ emitted (step i w) = [])
  /\ (i = Api_createCommunication_onSuccess_nullish ->
      final (step i w)
      = set_localStorage (insert LS_COMMUNICATION_ID_KEY (js "undefined")) w
      /\ emitted (step i w)
         = [EThunk Thunk.loadOrCreateCommunicationSuccess;
            EStorage (SetItem LS_COMMUNICATION_ID_KEY (js "undefined"))]).
Proof.
  split; [|split; [|split]].
  - rewrite step_completed. destruct i; try reflexivity.
    cbn [input_throws]. rewrite handleSocketOnMessage_throws_iff.
    destruct (router_throws _); reflexivity.
  - intros event_data -> H. rewrite step_Socket_message. cbn [final emitted].
    rewrite handleSocketOnMessage_throws_iff, H. split; reflexivity.
  - intros ->. split; reflexivity.
  - intros ->. split; reflexivity.
Qed.

Lemma inputs_that_throw_witness :
  completed (step (Socket_message (jq "null")) open_world) = Abrupt TypeError
  /\ final (step (Socket_message (jq "null")) open_world) = open_world
  /\ localStorage (final (step Api_createCommunication_onSuccess_nullish open_world))
       !! LS_COMMUNICATION_ID_KEY = Some (js "undefined")
  /\ socket (final (step Api_createCommunication_onSuccess_nullish open_world))
     = socket open_world.
Proof.
  destruct (inputs_that_throw (Socket_message (jq "null")) open_world) as (H1 & H2 & _).
  destruct (inputs_that_throw Api_createCommunication_onSuccess_nullish open_world)
    as (_ & _ & _ & H3).
  split; [exact H1|].
  split; [exact (proj1 (H2 _ eq_refl eq_refl))|].
  rewrite (proj1 (H3 eq_refl)). split; reflexivity.
Defined.

(** X4. The failure of the creation never throws, whatever was thrown at
    it ([null] and [undefined] included), and always shows a message that
    is not [null] or [undefined]: [error.response.data.detail] when that
    is there, else [error.message] when that is there, else the fixed
    text. An empty string counts as there. *)
Theorem creation_failure_message (error : value) (w : world) :
  let detail :=
    opt_member (opt_member (opt_member error (js "response")) (js "data")) (js "detail") in
  let message := opt_member error (js "message") in
  exists shown,
    loadOrCreateCommunicationFailure error w =
    returned tt
      [ESnackbar (Message shown) SnackbarType.ERROR;
       EDispatch (setLoading false);
       EDispatch (setConnectionStatus ConnectionStatus.NOT_CONNECTED)] w
    /\ nullish shown = false
    /\ (nullish detail = false -> shown = detail)
    /\ (nullish detail = true -> nullish message = false -> shown = message)
    /\ (nullish detail = true -> nullish message = true ->
        shown = str "Communication creation failed!")
    /\ (nullish error = true -> shown = str "Communication creation failed!").
Proof.
  intros detail message.
  exists (coalesce (coalesce detail message) (str "Communication creation failed!")).
  split; [reflexivity|].
  assert (nullish error = true -> nullish detail = true /\ nullish message = true) as Hn.
  { intros H. subst detail message. unfold opt_member. rewrite H. cbn. auto. }
  unfold coalesce.
  destruct (nullish detail) eqn:Hd, (nullish message) eqn:Hm; cbn;
    rewrite ?Hd, ?Hm; repeat split; try congruence; try reflexivity.
  all: intros H; destruct (Hn H); congruence.
Qed.

Lemma creation_failure_message_witness :
  let error := VObject [(js "message", str "Network Error");
                        (js "response", VObject [(js "data", VObject [(js "detail", str "")])])] in
  emitted (loadOrCreateCommunicationFailure error initial_world)
  = [ESnackbar (Message (str "")) SnackbarType.ERROR;
     EDispatch (setLoading false);
     EDispatch (setConnectionStatus ConnectionStatus.NOT_CONNECTED)].
Proof.
  intros error.
  destruct (creation_failure_message error initial_world) as (shown & -> & _ & H & _).
  rewrite H; reflexivity.
Defined.

(** *** The two translations, the other way round *)

Lemma as_echoed_eq c :
  as_echoed c =
  {| skin := skin c; audioEnabled := audioEnabled c; textEnabled := textEnabled c;
     llmModel := llmModel c; voiceLanguageCode := voiceLanguageCode c;
     voiceGender := voiceGender c; proactiveModeEnabled := proactiveModeEnabled c;
     subtitlesEnabled := coalesce (subtitlesEnabled c) (VBool true);
     customPromptSuffix := VUndefined |}.
Proof. reflexivity. Qed.

Lemma parse_make c :
  parseSocketConfig (makeSocketConfig c) = Normal (as_echoed c).
Proof.
  rewrite as_echoed_eq.
  rewrite parseSocketConfig_eq by reflexivity.
  destruct (makeSocketConfig_fields c) as (-> & -> & -> & -> & -> & -> & -> & ->).
  f_equal. f_equal. destruct (subtitlesEnabled c); reflexivity.
Qed.

(** X5. [parseSocketConfig] after [makeSocketConfig] gives the client
    configuration back with [true] in place of a [subtitlesEnabled] that
    is [null] or [undefined] and without its [customPromptSuffix]: the
    wire has eight fields, and what the component spreads into the
    configuration as [customPromptSuffix] is not among them, so it is
    never sent and never comes back. The round trip gives the
    configuration back unchanged exactly when [subtitlesEnabled] is
    neither [null] nor [undefined] and there is no [customPromptSuffix].
    Whatever [parseSocketConfig] returns is of that kind and survives the
    round trip. [parseSocketConfig] throws on [null] and [undefined] and
    on nothing else. *)
Theorem client_config_round_trip (c : SystemConfig) :
  parseSocketConfig (makeSocketConfig c)
  = Normal (with_field (js "customPromptSuffix") VUndefined
              (with_field (js "subtitlesEnabled")
                 (coalesce (subtitlesEnabled c) (VBool true)) c))
  /\ (parseSocketConfig (makeSocketConfig c) = Normal c
      <-> nullish (subtitlesEnabled c) = false /\ customPromptSuffix c = VUndefined)
  /\ (forall v,
         makeSocketConfig (with_field (js "customPromptSuffix") v c) = makeSocketConfig c)
  /\ (forall r,
         nullish r = false ->
         exists p,
           parseSocketConfig r = Normal p
           /\ nullish (subtitlesEnabled p) = false
           /\ customPromptSuffix p = VUndefined
           /\ parseSocketConfig (makeSocketConfig p) = Normal p)
  /\ (forall r, nullish r = true -> parseSocketConfig r = Abrupt TypeError).
Proof.
  split; [apply parse_make|].
  assert (forall c0, nullish (subtitlesEnabled c0) = false ->
                     customPromptSuffix c0 = VUndefined ->
                     parseSocketConfig (makeSocketConfig c0) = Normal c0) as Hfix.
  { intros c0 H Hs. rewrite parse_make, as_echoed_eq.
    unfold coalesce. rewrite H, <- Hs. destruct c0; reflexivity. }
  split; [split|split; [|split]].
  - rewrite parse_make, as_echoed_eq. intros E.
    injection E as E. destruct c as [? ? ? ? ? ? ? sub suffix]. cbn in *.
    injection E as E1 E2. split; [|symmetry; exact E2].
    unfold coalesce in E1. destruct sub; try reflexivity; discriminate E1.
  - intros [H Hs]. apply Hfix; assumption.
  - intros v. reflexivity.
  - intros r Hr. rewrite (parseSocketConfig_eq r Hr).
    eexists. split; [reflexivity|].
    assert (forall v, nullish (coalesce v (VBool true)) = false) as Hc
        by (intros []; reflexivity).
    split; [apply Hc|]. split; [reflexivity|]. apply Hfix; [apply Hc | reflexivity].
  - intros r Hr. unfold parseSocketConfig, member. rewrite Hr. reflexivity.
Qed.

Lemma client_config_round_trip_witness :
  let r := VObject [(js "skin", str "simple"); (js "subtitles_enabled", VNull);
                    (js "customPromptSuffix", str "Be brief.")] in
  exists p,
    parseSocketConfig r = Normal p
    /\ subtitlesEnabled p = VBool true
    /\ customPromptSuffix p = VUndefined
    /\ parseSocketConfig (makeSocketConfig p) = Normal p.
Proof.
  intros r.
  destruct (client_config_round_trip
              {| skin := VNull; audioEnabled := VNull; textEnabled := VNull;
                 llmModel := VNull; voiceLanguageCode := VNull; voiceGender := VNull;
                 proactiveModeEnabled := VNull; subtitlesEnabled := VNull;
                 customPromptSuffix := VNull |})
    as (_ & _ & _ & H & _).
  destruct (H r eq_refl) as (p & Hp & _ & Hs & Hrt).
  exists p. split; [exact Hp|]. split; [|split; [exact Hs | exact Hrt]].
  vm_compute in Hp. injection Hp as <-. reflexivity.
Defined.

(** X6. A message that carries one of the types this module sends
    (UPDATE_CONFIG, PING, SEND_TEXT, SEND_AUDIO) is not routed: the types
    of the two directions are disjoint, and such a message only dispatches
    [doNothing]. *)
Theorem outbound_types_are_not_routed (event_data t : jsstring) (w : world) :
  member (messageToJson event_data) (js "type") = Normal (VString t) ->
  In t [socketSendMsgTypes.UPDATE_CONFIG; socketSendMsgTypes.PING;
        socketSendMsgTypes.SEND_TEXT; socketSendMsgTypes.SEND_AUDIO] ->
  handleSocketOnMessage event_data w = returned tt [EDispatch doNothing] w.
Proof.
  intros H Ht. eapply route_default; [exact H|].
  rewrite list_elem_of_In.
  cbn in Ht. destruct Ht as [<-|[<-|[<-|[<-|[]]]]]; vm_compute; intuition discriminate.
Qed.

Lemma outbound_types_are_not_routed_witness :
  handleSocketOnMessage (jq "{'type':'PING'}") open_world
  = returned tt [EDispatch doNothing] open_world.
Proof.
  apply (outbound_types_are_not_routed _ socketSendMsgTypes.PING open_world);
    [reflexivity | right; left; reflexivity].
Defined.

(** *** What goes out *)

Lemma send_payloads_app a b : send_payloads (a ++ b) = send_payloads a ++ send_payloads b.
Proof. apply omap_app. Qed.

Lemma send_payloads_sends w payload :
  send_payloads (sends w payload) = [] \/ send_payloads (sends w payload) = [payload].
Proof.
  unfold sends. destruct (socket w) as [s|]; [|left; reflexivity].
  destruct (readyState s); auto.
Qed.

Lemma passive_no_payload evs : forallb passive evs = true -> send_payloads evs = [].
Proof.
  unfold send_payloads.
  induction evs as [|e evs IH]; cbn; [reflexivity|].
  intros H. apply andb_prop in H as [He H].
  destruct e as [[]| | | | | | |]; try discriminate He; exact (IH H).
Qed.

Lemma Forall_sends (P : value -> Prop) w payload :
  P payload -> Forall P (send_payloads (sends w payload)).
Proof.
  intros H. destruct (send_payloads_sends w payload) as [-> | ->]; repeat constructor.
  exact H.
Qed.

Lemma step_payloads i w :
  Forall (fun p =>
            p = ping_payload
            \/ (exists text, p = text_payload text /\ forallb is_whitespace text = false)
            \/ exists config, p = config_payload config)
    (send_payloads (emitted (step i w))).
Proof.
  destruct i.
  all: try (cbn; unfold_M; constructor; fail).
  - rewrite step_Ui_loadOrCreateCommunication. cbn.
    destruct (localStorage w !! _) as [[|??]|]; cbn; constructor.
  - rewrite step_Ui_socketUpdateConfig. cbn. rewrite send_payloads_app.
    rewrite app_nil_r. apply Forall_sends. right. right. eauto.
  - destruct (step_Ui_sendTextToLLM text w) as [_ ->].
    rewrite !send_payloads_app. cbn [app].
    destruct (forallb _ _) eqn:Hb; [constructor|].
    rewrite app_nil_r. apply Forall_sends. right. left. eauto.
  - rewrite step_Socket_message. cbn [emitted]. rewrite send_payloads_app.
    destruct (handleSocketOnMessage_cases event_data w) as [[_ ->]|(_ & _ & H)].
    + cbn. constructor.
    + rewrite (passive_no_payload _ H). constructor.
  - rewrite step_Timer_fires. cbn.
    destruct (intervals w !! i); [|constructor].
    apply Forall_sends. left. reflexivity.
Qed.

(** X7. Whatever reaches the module, what it hands to the socket is a
    ping, a text that is not blank, or a configuration update. So every
    send has one of the types PING, SEND_TEXT and UPDATE_CONFIG, and
    SEND_AUDIO is never sent. *)
Theorem sent_payloads_are_of_three_kinds (inputs : list input) (w : world) :
  Forall (fun p =>
            (p = VObject [(js "type", VString (js "PING"))]
             \/ (exists text,
                    p = VObject [(js "type", VString (js "SEND_TEXT"));
                                 (js "data", VObject [(js "text", VString text)])]
                    /\ forallb is_whitespace text = false)
             \/ exists config,
                  p = VObject [(js "type", VString (js "UPDATE_CONFIG"));
                               (js "data",
                                 VObject [(js "config", makeSocketConfig config)])])
            /\ read_prop p (js "type") <> VString socketSendMsgTypes.SEND_AUDIO)
    (send_payloads (snd (run inputs w))).
Proof.
  revert w. induction inputs as [|i rest IH]; intros w.
  - constructor.
  - rewrite run_cons. cbn [snd]. rewrite send_payloads_app.
    apply Forall_app. split; [|apply IH].
    eapply Forall_impl; [apply step_payloads|].
    intros p H. split; [exact H|].
    destruct H as [->|[(text & -> & _)|(config & ->)]]; vm_compute; discriminate.
Qed.

(** *** The socket and the stored id *)

Lemma step_Api_createCommunication_onSuccess data w :
  step (Api_createCommunication_onSuccess data) w =
  returned tt
    [EThunk Thunk.loadOrCreateCommunicationSuccess;
     EStorage (SetItem LS_COMMUNICATION_ID_KEY (communication_id data));
     EDispatch (setCommunicationId (communication_id data));
     EDispatch (setLoading false);
     EThunk Thunk.initAndHandleWebsocket;
     EWebSocket (communication_id data)]
    (set_socket (Some {| ws_communicationId := communication_id data;
                         readyState := ReadyState.CONNECTING |})
       (set_localStorage (insert LS_COMMUNICATION_ID_KEY (communication_id data)) w)).
Proof. reflexivity. Qed.

Lemma socket_matches_storage_step i w :
  null_creation i = false ->
  socket_matches_storage w -> socket_matches_storage (final (step i w)).
Proof.
  unfold socket_matches_storage. intros Hi H.
  destruct i.
  all: try (cbn; exact H).
  - rewrite step_Ui_loadOrCreateCommunication. cbn.
    destruct (localStorage w !! LS_COMMUNICATION_ID_KEY) as [[|c id]|] eqn:Hs;
      cbn; intros id' s E1 E2; rewrite Hs in E1.
    + eapply H; eassumption.
    + injection E1 as <-. injection E2 as <-. reflexivity.
    + discriminate E1.
  - rewrite step_Ui_socketUpdateConfig. exact H.
  - destruct (step_Ui_sendTextToLLM text w) as [-> _]. exact H.
  - rewrite step_Api_createCommunication_onSuccess. cbn.
    intros id s E1 E2. rewrite lookup_insert_eq in E1.
    injection E1 as <-. injection E2 as <-. reflexivity.
  - rewrite step_Socket_message. cbn [final].
    destruct (handleSocketOnMessage_cases event_data w) as [[_ ->]|(_ & -> & _)];
      [|exact H].
    cbn. intros id s E1. rewrite lookup_delete_eq in E1. discriminate E1.
  - rewrite step_Timer_fires. exact H.
  - cbn. intros id s E1 E2. destruct (socket w) as [s0|] eqn:Hs; [|discriminate E2].
    cbn in E2. injection E2 as <-. cbn. eapply H; [exact E1 | reflexivity].
  - discriminate Hi.
Qed.

(** X8. A socket that the module opened belongs to the stored id, as long
    as no creation answered [null] or [undefined]: when the stored id and
    the socket agree to begin with (as they do while there is no socket),
    then after any run without such an answer the id under
    "communicationId", if there is one, is the id the current socket was
    opened for, if there is one. A creation that answers [null] or
    [undefined] breaks this: it stores the string "undefined" and leaves
    the socket that was there. *)
Theorem socket_belongs_to_stored_id (inputs : list input) (w : world) :
  (socket_matches_storage w ->
   existsb null_creation inputs = false ->
   forall id s,
     localStorage (fst (run inputs w)) !! LS_COMMUNICATION_ID_KEY = Some id ->
     socket (fst (run inputs w)) = Some s ->
     ws_communicationId s = id)
  /\ (let w' := fst (run [Api_createCommunication_onSuccess_nullish] w) in
      localStorage w' !! LS_COMMUNICATION_ID_KEY = Some (js "undefined")
      /\ socket w' = socket w).
Proof.
  split.
  - revert w. induction inputs as [|i rest IH]; intros w H Hn.
    + exact H.
    + cbn [existsb] in Hn. apply orb_false_elim in Hn as [Hi Hn].
      rewrite run_cons. cbn [fst].
      apply IH; [apply socket_matches_storage_step; assumption | exact Hn].
  - cbn. split; [apply lookup_insert_eq | reflexivity].
Qed.

Lemma socket_belongs_to_stored_id_witness :
  let inputs :=
    [Ui_loadOrCreateCommunication;
     Api_createCommunication_onSuccess {| communication_id := js "c0ffee" |};
     Socket_message (jq "{'type':'INVALID_COMMUNICATION_ID'}");
     Api_createCommunication_onSuccess {| communication_id := js "decaf" |};
     Browser_readyState ReadyState.OPEN] in
  localStorage (fst (run inputs initial_world)) !! LS_COMMUNICATION_ID_KEY
  = Some (js "decaf")
  /\ (ws_communicationId <$> socket (fst (run inputs initial_world))) = Some (js "decaf").
Proof.
  intros inputs. split; [reflexivity|].
  assert (socket_matches_storage initial_world) as H0 by (intros id s _ E; discriminate E).
  destruct (socket (fst (run inputs initial_world))) as [s|] eqn:Hs; [|discriminate Hs].
  cbn. f_equal.
  apply (proj1 (socket_belongs_to_stored_id inputs initial_world) H0 eq_refl (js "decaf") s);
    [reflexivity | exact Hs].
Defined.

(** X9. After a message of type INVALID_COMMUNICATION_ID, a creation that
    succeeds stores the new id and leaves a connecting socket for it, with
    the status CONNECTING; a creation that fails leaves no stored id, the
    status NOT_CONNECTED, and the socket the module had before. *)
Theorem recovery_after_invalid_id (event_data : jsstring) (w : world) :
  message_type event_data = VString socketReceiveMsgTypes.INVALID_COMMUNICATION_ID ->
  (forall data,
      let r := run [Socket_message event_data; Api_createCommunication_onSuccess data] w in
      localStorage (fst r) !! LS_COMMUNICATION_ID_KEY = Some (communication_id data)
      /\ socket (fst r) = Some {| ws_communicationId := communication_id data;
                                  readyState := ReadyState.CONNECTING |}
      /\ intervals (fst r) = intervals w
      /\ status_sets (snd r) = [ConnectionStatus.CONNECTING])
  /\ (forall error,
         let r := run [Socket_message event_data; Api_createCommunication_onFailure error] w in
         localStorage (fst r) !! LS_COMMUNICATION_ID_KEY = None
         /\ socket (fst r) = socket w
         /\ intervals (fst r) = intervals w
         /\ status_sets (snd r)
            = [ConnectionStatus.CONNECTING; ConnectionStatus.NOT_CONNECTED]).
Proof.
  intros Ht.
  pose proof (route_INVALID_COMMUNICATION_ID _ w (message_type_member _ _ Ht)) as Hr.
  split.
  - intros data r. subst r. rewrite !run_cons. cbn [run fst snd].
    rewrite step_Socket_message, Hr. cbn [final emitted returned].
    repeat split.
    cbn. apply lookup_insert_eq.
  - intros error r. subst r. rewrite !run_cons. cbn [run fst snd].
    rewrite step_Socket_message, Hr. cbn [final emitted returned].
    repeat split.
    cbn. apply lookup_delete_eq.
Qed.

Lemma recovery_after_invalid_id_witness :
  let r := run [Socket_message (jq "{'type':'INVALID_COMMUNICATION_ID'}");
                Api_createCommunication_onFailure VNull] open_world in
  localStorage (fst r) !! LS_COMMUNICATION_ID_KEY = None
  /\ socket (fst r) = socket open_world.
Proof.
  intros r.
  destruct (recovery_after_invalid_id (jq "{'type':'INVALID_COMMUNICATION_ID'}")
              open_world eq_refl) as [_ H].
  destruct (H VNull) as (H1 & H2 & _). split; assumption.
Defined.

(** *** The heartbeats add up *)

Lemma step_Socket_open w :
  step Socket_open w =
  returned tt [EDispatch (setConnectionStatus ConnectionStatus.CONNECTED)]
    (set_intervals (fun l => l ++ [heartbeat]) w).
Proof. reflexivity. Qed.

Lemma run_opens k w :
  fst (run (repeat Socket_open k) w)
  = set_intervals (fun l => l ++ repeat heartbeat k) w.
Proof.
  revert w. induction k as [|k IH]; intros w.
  - cbn. destruct w. unfold set_intervals. cbn. rewrite app_nil_r. reflexivity.
  - cbn [repeat]. rewrite run_cons. cbn [fst]. rewrite IH, step_Socket_open.
    cbn. unfold set_intervals. cbn. rewrite <- app_assoc. reflexivity.
Qed.

Lemma run_timers l w s :
  socket w = Some s -> readyState s = ReadyState.OPEN ->
  Forall (fun i => (i < length (intervals w))%nat) l ->
  run (map Timer_fires l) w
  = (w, repeat (ESend ReadyState.OPEN ping_payload) (length l)).
Proof.
  intros Hs Ho. induction l as [|i l IH]; intros Hl; [reflexivity|].
  apply Forall_cons in Hl as [Hi Hl].
  cbn [map]. rewrite run_cons, step_Timer_fires. cbn [final emitted returned].
  rewrite (IH Hl). cbn [fst snd length repeat].
  destruct (intervals w !! i) eqn:Hlk.
  - unfold sends. rewrite Hs, Ho. reflexivity.
  - apply lookup_ge_None in Hlk. lia.
Qed.

(** X10. The heartbeats add up: nothing stops a timer, so after [k] open
    events (one per connection that opened) on an open socket each round of
    the timers sends [k] pings. *)
Theorem heartbeats_accumulate (k : nat) (w : world) (s : WebSocket) :
  socket w = Some s ->
  readyState s = ReadyState.OPEN ->
  intervals w = [] ->
  let w' := fst (run (repeat Socket_open k) w) in
  intervals w' = repeat heartbeat k
  /\ run (map Timer_fires (seq 0 k)) w'
     = (w', repeat (ESend ReadyState.OPEN ping_payload) k).
Proof.
  intros Hs Ho Hi w'. subst w'. rewrite run_opens.
  assert (intervals (set_intervals (fun l => l ++ repeat heartbeat k) w)
          = repeat heartbeat k) as E by (cbn; rewrite Hi; reflexivity).
  split; [exact E|].
  set (w' := set_intervals (fun l => l ++ repeat heartbeat k) w) in *.
  rewrite (run_timers (seq 0 k) w' s Hs Ho).
  - rewrite length_seq. reflexivity.
  - rewrite E, repeat_length. apply Forall_forall. intros i Hin.
    apply list_elem_of_In, in_seq in Hin. lia.
Qed.

Lemma heartbeats_accumulate_witness :
  snd (run (map Timer_fires [0; 1; 2]%nat)
         (fst (run [Socket_open; Socket_open; Socket_open] open_world)))
  = [ESend ReadyState.OPEN ping_payload; ESend ReadyState.OPEN ping_payload;
     ESend ReadyState.OPEN ping_payload].
Proof.
  destruct (heartbeats_accumulate 3 open_world
              {| ws_communicationId := js "c0ffee"; readyState := ReadyState.OPEN |}
              eq_refl eq_refl eq_refl) as [_ H].
  cbn [repeat seq map] in H. cbn [map]. rewrite H. reflexivity.
Defined.

(** *** The handlers of the component *)

Lemma run_socketUpdateConfig config w :
  run [Ui_socketUpdateConfig config] w
  = (w, sends w (config_payload config) ++ [EDispatch doNothing]).
Proof.
  rewrite run_cons, step_Ui_socketUpdateConfig. cbn. rewrite app_nil_r. reflexivity.
Qed.

Lemma is_config_update_intro config :
  is_config_update [Ui_socketUpdateConfig config] config.
Proof. split; [reflexivity | intros w; apply run_socketUpdateConfig]. Qed.

(** Decide a frame condition over the eight wire fields. *)
Ltac wire_frame :=
  let k := fresh "k" in
  let Hk := fresh "Hk" in
  let Hne := fresh "Hne" in
  intros k Hk Hne; cbn in Hk;
  destruct Hk as [<-|[<-|[<-|[<-|[<-|[<-|[<-|[<-|[]]]]]]]]];
  first [reflexivity | exfalso; apply Hne; reflexivity].

(** X11. Each of the four switches of the panel (voice chat, text chat,
    proactive mode, subtitles) dispatches one configuration update in
    which its own wire field is the negation of the current value's
    truthiness and the seven other wire fields are as they were. The
    update goes out only when the socket is open; either way the handler
    changes nothing in the module. *)
Theorem switches_flip_one_wire_field (st : CommunicationState) :
  (exists c,
      is_config_update (handleMicClick st) c
      /\ changes_one_wire_field (st_config st) c (js "audio_enabled")
           (VBool (negb (truthy (audioEnabled (st_config st))))))
  /\ (exists c,
         is_config_update (handleKeyboardClick st) c
         /\ changes_one_wire_field (st_config st) c (js "text_enabled")
              (VBool (negb (truthy (textEnabled (st_config st))))))
  /\ (exists c,
         is_config_update (handleProactiveModeClick st) c
         /\ changes_one_wire_field (st_config st) c (js "proactive_mode_enabled")
              (VBool (negb (truthy (proactiveModeEnabled (st_config st))))))
  /\ (exists c,
         is_config_update (handleSubtitlesToggle st) c
         /\ changes_one_wire_field (st_config st) c (js "subtitles_enabled")
              (VBool (negb (truthy (subtitlesEnabled (st_config st)))))).
Proof.
  repeat split; eexists; (split; [apply is_config_update_intro|]);
    (split; [reflexivity | wire_frame]).
Qed.

Lemma possibleFields_In name :
  In name possibleFields ->
  name = js "llmModel" \/ name = js "voiceLanguageCode" \/ name = js "voiceGender".
Proof. cbn. intuition. Qed.

(** X12. A select box updates the configuration only when its name is
    one of llmModel, voiceLanguageCode and voiceGender and its value is
    not empty; then it dispatches one update in which the wire field of
    that name is the chosen string and the seven others are as they were.
    Otherwise it dispatches nothing. *)
Theorem handleSelectInput_sets_one_wire_field (st : CommunicationState)
    (name item : jsstring) :
  (handleSelectInput st name item = [] <-> (~ In name possibleFields \/ item = []))
  /\ (In name possibleFields -> item <> [] ->
      exists c,
        is_config_update (handleSelectInput st name item) c
        /\ In (wire_name name)
             [js "llm_model"; js "voice_language_code"; js "voice_gender"]
        /\ changes_one_wire_field (st_config st) c (wire_name name) (VString item)).
Proof.
  unfold handleSelectInput.
  assert (truthy_string item = false <-> item = []) as Hi by apply truthy_string_nil.
  destruct (bool_decide (name ∈ possibleFields)) eqn:Hb.
  - apply bool_decide_eq_true_1, list_elem_of_In in Hb.
    destruct (truthy_string item) eqn:Ht; cbn.
    + split.
      * split; [discriminate|]. intros [Hn|He]; [contradiction|].
        apply Hi in He. discriminate He.
      * intros _ _. eexists. split; [apply is_config_update_intro|].
        apply possibleFields_In in Hb.
        destruct Hb as [-> | [-> | ->]]; (split; [cbn; auto|]);
          (split; [reflexivity | wire_frame]).
    + split; [split; [right; apply Hi; reflexivity | reflexivity]|].
      intros _ Hne. exfalso. apply Hne, Hi. reflexivity.
  - apply bool_decide_eq_false_1 in Hb. rewrite list_elem_of_In in Hb. cbn [negb orb].
    split; [split; [left; exact Hb | reflexivity]|].
    intros Hin. contradiction.
Qed.

Lemma handleSelectInput_sets_one_wire_field_witness :
  let st := {| st_communicationId := Some (js "c0ffee");
               st_config := with_default_subtitles
                              {| skin := str "simple"; audioEnabled := VBool true;
                                 textEnabled := VBool true; llmModel := str "small";
                                 voiceLanguageCode := str "en-US";
                                 voiceGender := str "FEMALE";
                                 proactiveModeEnabled := VBool false;
                                 subtitlesEnabled := VUndefined;
                                 customPromptSuffix := VUndefined |};
               st_availableModels := [str "small"; str "large"] |} in
  snd (run (handleSelectInput st (js "llmModel") (js "large")) open_world)
  = [ESend ReadyState.OPEN
       (config_payload (with_field (js "llmModel") (str "large") (st_config st)));
     EDispatch doNothing]
  /\ handleSelectInput st (js "skin") (js "fullbot") = []
  /\ handleSelectInput st (js "voiceGender") (js "") = [].
Proof.
  intros st.
  destruct (handleSelectInput_sets_one_wire_field st (js "llmModel") (js "large"))
    as [_ H].
  destruct H as (c & [Hc Hrun] & _ & _); [cbn; auto | discriminate |].
  split.
  - rewrite Hrun. injection Hc as <-. reflexivity.
  - split.
    + apply (handleSelectInput_sets_one_wire_field st (js "skin") (js "fullbot")).
      left. cbn. intuition discriminate.
    + apply (handleSelectInput_sets_one_wire_field st (js "voiceGender") (js "")).
      right. reflexivity.
Defined.

Lemma run_sendTextToLLM text w :
  forallb is_whitespace text = false ->
  run [Ui_sendTextToLLM text] w
  = (w, EThunk Thunk.sendTextToLLM
        :: sends w (text_payload text)
        ++ [ESnackbar (Message (str "Sent text to AI")) SnackbarType.INFO]).
Proof.
  intros Hb. rewrite run_cons. cbn [run fst snd].
  destruct (step_Ui_sendTextToLLM text w) as [-> ->]. rewrite Hb.
  rewrite app_nil_r. reflexivity.
Qed.

(** X13. [handleSendToAI] asks for a communication id first and for a
    text that [trim] does not empty second, and keeps the input in both
    refusals. Otherwise it dispatches [sendTextToLLM] with the input as
    typed, clears the input and reports the text as sent. So the module's
    own refusal of a blank text is never reached from the panel, and the
    panel reports the text as sent also when the socket is not open and
    nothing goes out. *)
Theorem handleSendToAI_guards (st : CommunicationState) (p : PanelState) (w : world) :
  let has_id :=
    match st_communicationId st with
    | Some id => truthy_string id
    | None => false
    end in
  (has_id = false ->
   handleSendToAI st p =
   ({| userInput := userInput p;
       promptResponse := [10060] ++ js " Communication id not set" |}, []))
  /\ (has_id = true -> forallb is_whitespace (userInput p) = true ->
      handleSendToAI st p =
      ({| userInput := userInput p;
          promptResponse := [10060] ++ js " Please enter a message to send to the AI." |},
       []))
  /\ (has_id = true -> forallb is_whitespace (userInput p) = false ->
      handleSendToAI st p =
      ({| userInput := [];
          promptResponse := [9989] ++ js " Sent message to AI" |},
       [Ui_sendTextToLLM (userInput p)])
      /\ run [Ui_sendTextToLLM (userInput p)] w
         = (w, EThunk Thunk.sendTextToLLM
               :: sends w (text_payload (userInput p))
               ++ [ESnackbar (Message (str "Sent text to AI")) SnackbarType.INFO])
      /\ ((forall s, socket w = Some s -> readyState s <> ReadyState.OPEN) ->
          send_payloads (snd (run [Ui_sendTextToLLM (userInput p)] w)) = []))
  /\ (forall m,
         ~ In (ESnackbar m SnackbarType.ERROR)
             (snd (run (snd (handleSendToAI st p)) w))).
Proof.
  intros has_id. unfold handleSendToAI. fold has_id.
  pose proof (blank_test (userInput p)) as Hb.
  assert (negb (truthy_string (trim (userInput p)))
          = forallb is_whitespace (userInput p)) as Ht.
  { destruct (forallb is_whitespace (userInput p)) eqn:E.
    - apply trim_nil in E. rewrite E. reflexivity.
    - destruct (truthy_string (trim (userInput p))) eqn:E'; [reflexivity|].
      apply truthy_string_nil, trim_nil in E'. congruence. }
  rewrite Ht.
  split; [intros ->; reflexivity|].
  split; [intros -> ->; reflexivity|].
  split.
  - intros -> Hw. rewrite Hw. split; [reflexivity|].
    rewrite (run_sendTextToLLM _ w Hw). split; [reflexivity|].
    intros Hs. cbn [snd]. unfold sends.
    destruct (socket w) as [s|] eqn:Es; [|reflexivity].
    specialize (Hs s eq_refl). destruct (readyState s); try reflexivity.
    contradiction.
  - intros m. destruct has_id; cbn [negb]; [|cbn; tauto].
    destruct (forallb is_whitespace (userInput p)) eqn:Hw; [cbn; tauto|].
    cbn [snd]. rewrite (run_sendTextToLLM _ w Hw). cbn [snd].
    intros [H|H]; [discriminate H|].
    apply in_app_or in H as [H|H].
    + unfold sends in H. destruct (socket w) as [s|]; [|destruct H].
      destruct (readyState s); cbn in H; intuition discriminate.
    + cbn in H. intuition discriminate.
Qed.

Lemma handleSendToAI_guards_witness :
  let st := {| st_communicationId := Some (js "c0ffee");
               st_config := with_default_subtitles
                              {| skin := VNull; audioEnabled := VNull; textEnabled := VNull;
                                 llmModel := VNull; voiceLanguageCode := VNull;
                                 voiceGender := VNull; proactiveModeEnabled := VNull;
                                 subtitlesEnabled := VNull;
                                 customPromptSuffix := VUndefined |};
               st_availableModels := [] |} in
  let p := {| userInput := js " tell a joke "; promptResponse := [] |} in
  handleSendToAI st p
  = ({| userInput := []; promptResponse := [9989] ++ js " Sent message to AI" |},
     [Ui_sendTextToLLM (js " tell a joke ")])
  /\ snd (run (snd (handleSendToAI st p)) initial_world)
     = [EThunk Thunk.sendTextToLLM;
        ESnackbar (Message (str "Sent text to AI")) SnackbarType.INFO].
Proof.
  intros st p.
  destruct (handleSendToAI_guards st p initial_world) as (_ & _ & H & _).
  destruct H as (H1 & H2 & _); [reflexivity | reflexivity |].
  split; [exact H1|]. rewrite H1. cbn [snd]. rewrite H2. reflexivity.
Defined.

(** X14. [handleAddBot] opens the bot's page only when there is a
    communication id that is not empty, and then once: at the bot URL
    followed by [/?communication_id=] and the id as it is, so that two ids
    never open the same page. Nothing in the module changes. *)
Theorem handleAddBot_opens_the_page_of_the_id (st : CommunicationState) (w : world) :
  (forall id,
      st_communicationId st = Some id -> id <> [] ->
      run (handleAddBot st) w
      = (w, [EThunk Thunk.addNewBot;
             EWindowOpen (botUrl w ++ js "/?communication_id=" ++ id);
             ESnackbar (Message (str "Adding Bot")) SnackbarType.INFO]))
  /\ (st_communicationId st = None \/ st_communicationId st = Some [] ->
      handleAddBot st = [])
  /\ (forall id id',
         botUrl w ++ js "/?communication_id=" ++ id
         = botUrl w ++ js "/?communication_id=" ++ id' ->
         id = id').
Proof.
  unfold handleAddBot. split; [|split].
  - intros id -> Hne. destruct id as [|c id]; [contradiction|]. reflexivity.
  - intros [-> | ->]; reflexivity.
  - intros id id' E. apply app_inv_head in E. apply app_inv_head in E. exact E.
Qed.

Lemma handleAddBot_opens_the_page_of_the_id_witness :
  let st := {| st_communicationId := Some (js "c0ffee");
               st_config := with_default_subtitles
                              {| skin := VNull; audioEnabled := VNull; textEnabled := VNull;
                                 llmModel := VNull; voiceLanguageCode := VNull;
                                 voiceGender := VNull; proactiveModeEnabled := VNull;
                                 subtitlesEnabled := VNull;
                                 customPromptSuffix := VUndefined |};
               st_availableModels := [] |} in
  snd (run (handleAddBot st) initial_world)
  = [EThunk Thunk.addNewBot;
     EWindowOpen (js "http://localhost:5000/?communication_id=c0ffee");
     ESnackbar (Message (str "Adding Bot")) SnackbarType.INFO].
Proof.
  intros st.
  destruct (handleAddBot_opens_the_page_of_the_id st initial_world) as [H _].
  rewrite (H (js "c0ffee") eq_refl); [reflexivity | discriminate].
Defined.

(** X15. The effect that picks a default model fires exactly when the
    configuration has no model (a falsy [llmModel]) and the list of
    models is not empty; it then dispatches one update whose [llm_model]
    is the first model of the list and whose seven other wire fields are
    as they were. When that configuration comes back from the server the
    effect is quiet if the first model is truthy, and fires again if it
    is not. *)
Theorem defaultModelEffect_picks_the_first_model (st : CommunicationState) :
  (defaultModelEffect st <> []
   <-> (truthy (llmModel (st_config st)) = false /\ st_availableModels st <> []))
  /\ (forall first rest,
         st_availableModels st = first :: rest ->
         truthy (llmModel (st_config st)) = false ->
         exists c,
           is_config_update (defaultModelEffect st) c
           /\ changes_one_wire_field (st_config st) c (js "llm_model") first
           /\ exists echoed,
                parseSocketConfig (makeSocketConfig c) = Normal echoed
                /\ (defaultModelEffect (with_config echoed st) = []
                    <-> truthy first = true)).
Proof.
  unfold defaultModelEffect. split.
  - destruct (st_availableModels st) as [|first rest];
      [split; [congruence | intros [_ H]; congruence]|].
    destruct (truthy (llmModel (st_config st))); cbn.
    + split; [congruence | intros [H _]; discriminate H].
    + split; [intros _; split; [reflexivity | discriminate] | discriminate].
  - intros first rest Ha Hl. rewrite Ha, Hl. cbn [negb].
    eexists. split; [apply is_config_update_intro|].
    split; [split; [reflexivity | wire_frame]|].
    eexists. split; [apply parse_make|].
    unfold with_config. cbn [st_availableModels st_config]. rewrite Ha.
    change (llmModel (as_echoed
                        (with_field (js "llmModel") first (st_config st))))
      with first.
    destruct (truthy first); cbn; split; congruence.
Qed.

Lemma defaultModelEffect_picks_the_first_model_witness :
  let st := {| st_communicationId := None;
               st_config := with_default_subtitles
                              {| skin := str "simple"; audioEnabled := VBool true;
                                 textEnabled := VBool true; llmModel := VUndefined;
                                 voiceLanguageCode := VUndefined;
                                 voiceGender := VUndefined;
                                 proactiveModeEnabled := VBool false;
                                 subtitlesEnabled := VUndefined;
                                 customPromptSuffix := VUndefined |};
               st_availableModels := [str "small"; str "large"] |} in
  exists c,
    defaultModelEffect st = [Ui_socketUpdateConfig c]
    /\ read_prop (makeSocketConfig c) (js "llm_model") = str "small"
    /\ read_prop (makeSocketConfig c) (js "skin") = str "simple".
Proof.
  intros st.
  destruct (defaultModelEffect_picks_the_first_model st) as [_ H].
  destruct (H (str "small") [str "large"] eq_refl eq_refl)
    as (c & [Hc _] & [H1 H2] & _).
  exists c. split; [exact Hc|]. split; [exact H1|].
  rewrite (H2 (js "skin")); [reflexivity | cbn; auto | discriminate].
Defined.

(** *** The skins *)

Lemma skin_selected_at_most_one bot st :
  (length (List.filter (skin_selected st) (skinsList bot)) <= 1)%nat.
Proof.
  unfold skin_selected, skinsList. cbn [List.filter sk_id Skins.to_string].
  destruct (skin (st_config st)) as [| | | |s| |]; cbn; try lia.
  destruct (bool_decide (s = js "simple")) eqn:E1;
    [apply bool_decide_eq_true_1 in E1; subst s; vm_compute; lia|].
  destruct (bool_decide (s = js "fullbot")) eqn:E2;
    [apply bool_decide_eq_true_1 in E2; subst s; vm_compute; lia|].
  destruct (bool_decide (s = js "faceonly")); cbn; lia.
Qed.

(** X16. The list of skins has every skin of the enum once, in the
    enum's order, with pairwise different URLs under the bot URL. So the
    panel marks at most one skin as selected, and after a click on a skin
    of the list, once the configuration that the click sent has come back
    from the server, exactly the clicked skin. *)
Theorem skinsList_has_every_skin_once (bot : jsstring) :
  map sk_id (skinsList bot) = [Skins.simple; Skins.fullbot; Skins.faceonly]
  /\ (forall s : Skins.t, In s (map sk_id (skinsList bot)))
  /\ NoDup (map (fun d => Skins.to_string (sk_id d)) (skinsList bot))
  /\ NoDup (map sk_url (skinsList bot))
  /\ (forall st, (length (List.filter (skin_selected st) (skinsList bot)) <= 1)%nat)
  /\ (forall st d,
         In d (skinsList bot) ->
         exists c echoed,
           is_config_update (handleSkinChange st d) c
           /\ changes_one_wire_field (st_config st) c (js "skin")
                (VString (Skins.to_string (sk_id d)))
           /\ parseSocketConfig (makeSocketConfig c) = Normal echoed
           /\ List.filter (skin_selected (with_config echoed st)) (skinsList bot) = [d]).
Proof.
  split; [reflexivity|].
  split; [intros []; cbn; auto|].
  split; [apply (bool_decide_unpack _); vm_compute; exact I|].
  split.
  { cbn. repeat constructor.
    - rewrite !elem_of_cons. intros [E|[E|E]];
        [apply app_inv_head in E; discriminate E
        |apply app_inv_head in E; discriminate E
        |inversion E].
    - rewrite !elem_of_cons. intros [E|E];
        [apply app_inv_head in E; discriminate E | inversion E].
    - intros E. inversion E. }
  split; [intros st; apply skin_selected_at_most_one|].
  intros st d Hd. eexists. eexists.
  split; [apply is_config_update_intro|].
  split; [split; [reflexivity | wire_frame]|].
  split; [apply parse_make|].
  cbn in Hd. destruct Hd as [<-|[<-|[<-|[]]]]; reflexivity.
Qed.

Lemma skinsList_has_every_skin_once_witness :
  let bot := js "http://localhost:5000" in
  let st := {| st_communicationId := None;
               st_config := with_default_subtitles
                              {| skin := str "simple"; audioEnabled := VBool true;
                                 textEnabled := VBool true; llmModel := VUndefined;
                                 voiceLanguageCode := VUndefined;
                                 voiceGender := VUndefined;
                                 proactiveModeEnabled := VBool false;
                                 subtitlesEnabled := VUndefined;
                                 customPromptSuffix := VUndefined |};
               st_availableModels := [] |} in
  exists full,
    nth_error (skinsList bot) 1 = Some full
    /\ sk_url full = js "http://localhost:5000/assets/skins/fullbot.png"
    /\ exists c,
         handleSkinChange st full = [Ui_socketUpdateConfig c]
         /\ read_prop (makeSocketConfig c) (js "skin") = str "fullbot".
Proof.
  intros bot st.
  destruct (skinsList_has_every_skin_once bot) as (_ & _ & _ & _ & _ & H).
  eexists. split; [reflexivity|]. split; [reflexivity|].
  match goal with
  | |- exists c, handleSkinChange st ?d = _ /\ _ =>
      destruct (H st d) as (c & echoed & [Hc _] & [H1 _] & _); [cbn; auto|];
      exists c; split; [exact Hc | exact H1]
  end.
Defined.
